(** * lecker: the command-line wrapper of [src/lecker/cli.py]

    The program has two commands.  [fetch] normalises a URL, hands it to
    the crawling library inside [crawl_webpage] and prints the markdown;
    [setup] looks for a browser binary, installs one when none is found and
    runs the library's one-time setup executable.

    The embedding follows the Python text: a small state-and-exception
    monad [M] over a [World] that holds what the program can observe or
    change (the bindings of [sys.stdout] and [sys.stderr], the two real
    output streams, the [io.StringIO] objects, and the trace of the calls
    made to external code), a [with_] combinator for the context-manager
    protocol, and what the program delegates to as interfaces: the console
    library behind [print] ([Rich]), the crawling library ([Crawl4ai]) and
    the host system ([Host]). *)

From Stdlib Require Import ZArith String Ascii Lia DecimalString.
From stdpp Require Import base list strings.

Local Open Scope Z_scope.

(** ** The Python runtime *)

Module Py.

(** Exceptions.  The program distinguishes them by class only:
    [except Exception], [except subprocess.CalledProcessError] and
    [except FileNotFoundError]; [sys.exit] raises [SystemExit].  The three
    first constructors are the classes that derive from [BaseException]
    without deriving from [Exception]. *)
Inductive PyExc : Type :=
  | SystemExit (code : Z)
  | KeyboardInterrupt
  | CancelledError
  | CalledProcessError (returncode : Z) (stderr : string) (text : string)
  | FileNotFoundError (text : string)
  | OSError (text : string)
  | OtherException (cls : string) (text : string).

(** [isinstance(e, Exception)] *)
Definition is_Exception (e : PyExc) : bool :=
  match e with
  | SystemExit _ | KeyboardInterrupt | CancelledError => false
  | CalledProcessError _ _ _ | FileNotFoundError _ | OSError _
  | OtherException _ _ => true
  end.

Definition str_of_Z (z : Z) : string := NilZero.string_of_int (Z.to_int z).

(** [str(e)] *)
Definition str_exc (e : PyExc) : string :=
  match e with
  | SystemExit code => str_of_Z code
  | KeyboardInterrupt => ""
  | CancelledError => ""
  | CalledProcessError _ _ text => text
  | FileNotFoundError text => text
  | OSError text => text
  | OtherException _ text => text
  end.

(** The two standard streams as names, and what a name can be bound to. *)
Inductive Stream : Type := Out | Err.

Inductive Target : Type :=
  | RealStdout
  | RealStderr
  | StringIO (id : nat).

(** Calls that leave the program, in the order they are made. *)
Inductive Call : Type :=
  | CallCrawlerNew (headless verbose sleep_on_close : bool)
  | CallAenter
  | CallArun (url : string)
  | CallAexit (exc : option PyExc)
  | CallWhich (path : string)
  | CallRun (argv : list string).

Record World : Type := mkWorld {
  sys_stdout : Target;        (* what the name sys.stdout is bound to *)
  sys_stderr : Target;        (* what the name sys.stderr is bound to *)
  fd1 : string;               (* what has reached the real standard output *)
  fd2 : string;               (* what has reached the real standard error *)
  heap : list string;         (* contents of the io.StringIO objects, by id *)
  calls : list Call           (* trace of external calls *)
}.

(** The world a process starts in. *)
Definition boot : World :=
  {| sys_stdout := RealStdout; sys_stderr := RealStderr;
     fd1 := ""; fd2 := ""; heap := []; calls := [] |}.

Inductive Result (A : Type) : Type :=
  | Ret (a : A)
  | Raise (e : PyExc).
Arguments Ret {A} a.
Arguments Raise {A} e.

Definition M (A : Type) : Type := World -> Result A * World.

Definition ret {A} (a : A) : M A := fun w => (Ret a, w).

Definition raise {A} (e : PyExc) : M A := fun w => (Raise e, w).

Definition bind {A B} (m : M A) (k : A -> M B) : M B :=
  fun w =>
    match m w with
    | (Ret a, w1) => k a w1
    | (Raise e, w1) => (Raise e, w1)
    end.

Declare Scope py_scope.
Delimit Scope py_scope with py.
Notation "'let*' x ':=' m 'in' k" := (bind m (fun x => k))
  (at level 10, x name, m at level 100, k at level 200) : py_scope.
Notation "m ';;' k" := (bind m (fun _ => k))
  (at level 100, k at level 200, right associativity) : py_scope.
Local Open Scope py_scope.

(** [try: body  except <classes> as e: handler e]; [handler e = None] says
    that no [except] clause matches [e], which then propagates. *)
Definition try_except {A} (body : M A) (handler : PyExc -> option (M A))
  : M A :=
  fun w =>
    match body w with
    | (Ret a, w1) => (Ret a, w1)
    | (Raise e, w1) =>
        match handler e with
        | Some h => h w1
        | None => (Raise e, w1)
        end
    end.

Definition modify (f : World -> World) : M unit := fun w => (Ret tt, f w).

(** The world after external calls [cs] have been made. *)
Definition add_calls (cs : list Call) (w : World) : World :=
  {| sys_stdout := sys_stdout w; sys_stderr := sys_stderr w;
     fd1 := fd1 w; fd2 := fd2 w; heap := heap w;
     calls := calls w ++ cs |}.

Definition record (c : Call) : M unit := modify (add_calls [c]).

(** The world after [text] has been written to [t]. *)
Definition deliver (t : Target) (text : string) (w : World) : World :=
  match t with
  | RealStdout =>
      {| sys_stdout := sys_stdout w; sys_stderr := sys_stderr w;
         fd1 := fd1 w +:+ text; fd2 := fd2 w; heap := heap w;
         calls := calls w |}
  | RealStderr =>
      {| sys_stdout := sys_stdout w; sys_stderr := sys_stderr w;
         fd1 := fd1 w; fd2 := fd2 w +:+ text; heap := heap w;
         calls := calls w |}
  | StringIO i =>
      {| sys_stdout := sys_stdout w; sys_stderr := sys_stderr w;
         fd1 := fd1 w; fd2 := fd2 w;
         heap := alter (fun b => b +:+ text) i (heap w);
         calls := calls w |}
  end.

(** [t.write(text)] *)
Definition write (t : Target) (text : string) : M unit :=
  modify (deliver t text).

(** What [sys.stdout] or [sys.stderr] is bound to. *)
Definition binding (s : Stream) (w : World) : Target :=
  match s with
  | Out => sys_stdout w
  | Err => sys_stderr w
  end.

(** [sys.stdout] or [sys.stderr], looked up when the expression runs. *)
Definition sys_stream (s : Stream) : M Target :=
  fun w => (Ret (binding s w), w).

(** The world after the name [sys.stdout] or [sys.stderr] is bound to [t]. *)
Definition rebind (s : Stream) (t : Target) (w : World) : World :=
  match s with
  | Out =>
      {| sys_stdout := t; sys_stderr := sys_stderr w;
         fd1 := fd1 w; fd2 := fd2 w; heap := heap w; calls := calls w |}
  | Err =>
      {| sys_stdout := sys_stdout w; sys_stderr := t;
         fd1 := fd1 w; fd2 := fd2 w; heap := heap w; calls := calls w |}
  end.

Definition set_sys_stream (s : Stream) (t : Target) : M unit :=
  modify (rebind s t).

(** [io.StringIO()]: a fresh, empty in-memory text buffer. *)
Definition StringIO_new : M Target :=
  fun w =>
    (Ret (StringIO (length (heap w))),
     {| sys_stdout := sys_stdout w; sys_stderr := sys_stderr w;
        fd1 := fd1 w; fd2 := fd2 w; heap := heap w ++ [""];
        calls := calls w |}).

Definition newline : string := String (ascii_of_nat 10) EmptyString.

(** *** [rich.print]

    The program's [print] is [rich]'s (line 11), which does not write its
    argument as it is: it reads console markup in square brackets (and
    raises [MarkupError] on a closing tag that closes nothing), replaces
    emoji codes between colons, and wraps lines at the console width.  The
    library is not part of the program, so what it makes of a text is an
    interface, [render]; the process is taken to run with its standard
    streams not attached to a terminal, where [rich] writes no styles and
    the width is 80 columns. *)
Inductive Rendering : Type :=
  | Written (out : string)      (* the characters that reach the file *)
  | Rejected (msg : string).    (* [MarkupError(msg)] is raised *)

Class Rich : Type := {
  render : string -> Rendering
}.

Definition MarkupError (msg : string) : PyExc :=
  OtherException "MarkupError" msg.

(** Texts that [rich] writes as they are, followed by a newline: printable
    ASCII and newlines only, no opening square bracket, no second colon
    before the next blank after a colon (nothing that can be read as an
    emoji code), and no line longer than 80 characters. *)
Definition printable (a : ascii) : bool :=
  let n := nat_of_ascii a in
  (n =? 10)%nat || ((32 <=? n)%nat && (n <=? 126)%nat).

Fixpoint lines_fit (room : nat) (s : string) : bool :=
  match s with
  | EmptyString => true
  | String a s' =>
      if (nat_of_ascii a =? 10)%nat then lines_fit 80 s'
      else match room with
           | O => false
           | S room' => lines_fit room' s'
           end
  end.

Fixpoint no_emoji_code (after_colon : bool) (s : string) : bool :=
  match s with
  | EmptyString => true
  | String a s' =>
      let n := nat_of_ascii a in
      if (n =? 58)%nat
      then (if after_colon then false else no_emoji_code true s')
      else if (n =? 32)%nat || (n =? 10)%nat
           then no_emoji_code false s'
           else no_emoji_code after_colon s'
  end.

Fixpoint all_chars (f : ascii -> bool) (s : string) : bool :=
  match s with
  | EmptyString => true
  | String a s' => f a && all_chars f s'
  end.

Definition plain (text : string) : bool :=
  all_chars (fun a => printable a && negb (nat_of_ascii a =? 91)%nat) text
  && no_emoji_code false text
  && lines_fit 80 text.

(** What [rich.print(text)] does with a [str]. *)
Definition rich_output {rich : Rich} (text : string) : Rendering :=
  if plain text then Written (text +:+ newline) else render text.

(** [print(text)] and [print(text, file=sys.stderr)]: the file is
    [sys.stdout] as bound at the time of the call when none is given. *)
Definition print {rich : Rich} (text : string) (file : Stream) : M unit :=
  let* t := sys_stream file in
  match rich_output text with
  | Written out => write t out
  | Rejected msg => raise (MarkupError msg)
  end.

(** [print(obj)] for an object that is not a [str]: [rich] shows it in
    its own pretty-printed form, [shown], without reading markup. *)
Definition print_object (shown : string) (file : Stream) : M unit :=
  let* t := sys_stream file in
  write t shown.

(** [sys.exit(code)] *)
Definition sys_exit {A} (code : Z) : M A := raise (SystemExit code).

(** The context-manager protocol.  [enter] yields the value bound by [as]
    together with what the manager object remembers for its exit; [exit]
    receives the exception that left the body, if any, and answers whether
    to swallow it. *)
Record ContextManager (S A : Type) : Type := mkCM {
  cm_enter : M (S * A);
  cm_exit : S -> option PyExc -> M bool
}.
Arguments cm_enter {S A} _.
Arguments cm_exit {S A} _ _ _.

(** [with cm as x: body x].  [Some b]: the body ended with value [b] (here
    always by a [return] statement); [None]: the body raised and the
    manager swallowed the exception, so control continues after the
    statement. *)
Definition with_ {S A B} (cm : ContextManager S A) (body : A -> M B)
  : M (option B) :=
  fun w =>
    match cm_enter cm w with
    | (Raise e, w1) => (Raise e, w1)
    | (Ret (s, a), w1) =>
        match body a w1 with
        | (Ret b, w2) =>
            match cm_exit cm s None w2 with
            | (Ret _, w3) => (Ret (Some b), w3)
            | (Raise e', w3) => (Raise e', w3)
            end
        | (Raise e, w2) =>
            match cm_exit cm s (Some e) w2 with
            | (Ret true, w3) => (Ret None, w3)
            | (Ret false, w3) => (Raise e, w3)
            | (Raise e', w3) => (Raise e', w3)
            end
        end
    end.

(** [contextlib.redirect_stdout(new)] and [contextlib.redirect_stderr(new)]:
    entering remembers the current binding and installs [new]; leaving puts
    the remembered binding back and never swallows an exception. *)
Definition redirect (s : Stream) (new : Target) : ContextManager Target Target :=
  {| cm_enter :=
       (let* old := sys_stream s in
        set_sys_stream s new ;;
        ret (old, new));
     cm_exit := fun old _ => (set_sys_stream s old ;; ret false) |}.

(** [asyncio.run(coro)]: the coroutine is run to completion; its value or
    its exception is that of the call.  The program awaits one operation at
    a time, so a coroutine is the computation itself. *)
Definition asyncio_run {A} (coro : M A) : M A := coro.

(** The two routes by which external code writes to a standard stream:
    through the name [sys.stdout] or [sys.stderr], as bound at the time of
    the write, or directly to the stream the process started with (a
    reference saved earlier, the file descriptor, a child process). *)
Inductive Channel : Type :=
  | Through (s : Stream)
  | Direct (s : Stream).

Definition destination (c : Channel) (w : World) : Target :=
  match c with
  | Through s => binding s w
  | Direct Out => RealStdout
  | Direct Err => RealStderr
  end.

(** What a call into external code does, as far as this program can see:
    the text it writes to the standard streams, in order, and then the
    value it returns or the exception it raises. *)
Record Behaviour (A : Type) : Type := mkBehaviour {
  logs : list (Channel * string);
  outcome : PyExc + A
}.
Arguments mkBehaviour {A} _ _.
Arguments logs {A} _.
Arguments outcome {A} _.

Fixpoint emit (l : list (Channel * string)) : M unit :=
  match l with
  | [] => ret tt
  | (c, text) :: l' =>
      let* t := (fun w => (Ret (destination c w), w)) in
      write t text ;;
      emit l'
  end.

Definition perform {A} (b : Behaviour A) : M A :=
  emit (logs b) ;;
  match outcome b with
  | inl e => raise e
  | inr a => ret a
  end.

(** The world after a list of writes. *)
Fixpoint absorb (l : list (Channel * string)) (w : World) : World :=
  match l with
  | [] => w
  | (c, text) :: l' => absorb l' (deliver (destination c w) text w)
  end.

(** How a behaviour ends, as a result of the monad. *)
Definition result_of {A} (b : Behaviour A) : Result A :=
  match outcome b with
  | inl e => Raise e
  | inr a => Ret a
  end.

End Py.

(** ** The external libraries, as interfaces *)

Module Lib.
Import Py.

(** An [AsyncWebCrawler] object: what its [__aenter__], [arun] and
    [__aexit__] do.  [__aenter__] returns the crawler itself, so the name
    bound by [as crawler] denotes the same object. *)
Record Crawler (R : Type) : Type := mkCrawler {
  aenter : Behaviour unit;
  arun : string -> Behaviour R;
  aexit : option PyExc -> Behaviour bool
}.
Arguments mkCrawler {R} _ _ _.
Arguments aenter {R} _.
Arguments arun {R} _ _.
Arguments aexit {R} _ _.

(** The value of the [markdown] attribute of a crawl result: [None], a
    [str], or a [MarkdownGenerationResult] object. *)
Inductive Markdown (G : Type) : Type :=
  | MdNone
  | MdStr (s : string)
  | MdResult (g : G).
Arguments MdNone {G}.
Arguments MdStr {G} s.
Arguments MdResult {G} g.

Record CrawlResult (G : Type) : Type := mkCrawlResult {
  markdown : Markdown G
}.
Arguments mkCrawlResult {G} _.
Arguments markdown {G} _.

(** [crawl4ai]: the class [MarkdownGenerationResult], of which the program
    uses the truth value and what [rich.print] writes for an object of it
    (its pretty-printed form, to the last newline), and the constructor
    [AsyncWebCrawler(headless=, verbose=, sleep_on_close=)]. *)
Class Crawl4ai : Type := {
  MarkdownGenerationResult : Type;
  result_truth : MarkdownGenerationResult -> bool;
  result_text : MarkdownGenerationResult -> string;
  AsyncWebCrawler :
    bool -> bool -> bool -> Crawler (CrawlResult MarkdownGenerationResult)
}.

(** How running an external command ends: the process exits with a return
    code and the text of its two captured streams, or it cannot be started
    ([ENOENT]: the executable is not found; [EOther]: any other [OSError]). *)
Inductive ProcOutcome : Type :=
  | Exited (returncode : Z) (stdout stderr : string)
  | ENOENT (text : string)
  | EOther (text : string).

(** The host system: [shutil.which] and the commands [subprocess.run] can
    start. *)
Class Host : Type := {
  which : string -> option string;
  run_process : list string -> ProcOutcome
}.

End Lib.

(** ** One crawler session, described from outside

    What the statement [async with <crawler> as crawler: result = await
    crawler.arun(url=url); return result.markdown] amounts to for a given
    crawler object: the calls it makes, the text the crawler writes, and the
    value or exception the enclosing function ends with.  These are the
    words in which the properties of [fetch] speak about the crawling
    delegate; that the program computes them is proved below. *)

Module Protocol.
Import Py Lib.

Section Session.
Context {G : Type}.
Implicit Types (c : Crawler (CrawlResult G)) (url : string).

(** The exception handed to [__aexit__]. *)
Definition exit_arg {A} (r : PyExc + A) : option PyExc :=
  match r with
  | inl e => Some e
  | inr _ => None
  end.

Definition session_calls c url : list Call :=
  CallAenter ::
  match outcome (aenter c) with
  | inl _ => []
  | inr _ => [CallArun url; CallAexit (exit_arg (outcome (arun c url)))]
  end.

Definition session_logs c url : list (Channel * string) :=
  logs (aenter c) ++
  match outcome (aenter c) with
  | inl _ => []
  | inr _ =>
      logs (arun c url) ++ logs (aexit c (exit_arg (outcome (arun c url))))
  end.

(** How the [async with] statement itself ends: [Ret (Some m)] when its
    body reaches [return result.markdown] with value [m], [Ret None] when
    the statement is left without a [return]. *)
Definition session_result c url : Result (option (Markdown G)) :=
  match outcome (aenter c) with
  | inl e => Raise e
  | inr _ =>
      match outcome (arun c url) with
      | inr r =>
          match outcome (aexit c None) with
          | inl e' => Raise e'
          | inr _ => Ret (Some (markdown r))
          end
      | inl e =>
          match outcome (aexit c (Some e)) with
          | inl e' => Raise e'
          | inr true => Ret None
          | inr false => Raise e
          end
      end
  end.

(** The delegate raises [e] ([Raise e]), returns a crawl result whose
    markdown is [m] ([Ret m]), or swallows its own failure in [__aexit__]
    and so yields nothing ([Ret MdNone]). *)
Definition delegate_result c url : Result (Markdown G) :=
  match outcome (aenter c) with
  | inl e => Raise e
  | inr _ =>
      match outcome (arun c url) with
      | inr r =>
          match outcome (aexit c None) with
          | inl e' => Raise e'
          | inr _ => Ret (markdown r)
          end
      | inl e =>
          match outcome (aexit c (Some e)) with
          | inl e' => Raise e'
          | inr true => Ret MdNone
          | inr false => Raise e
          end
      end
  end.

End Session.

Definition stream_eqb (a b : Stream) : bool :=
  match a, b with
  | Out, Out | Err, Err => true
  | _, _ => false
  end.

Definition stream_of (c : Channel) : Stream :=
  match c with
  | Through s | Direct s => s
  end.

Definition is_direct (c : Channel) : bool :=
  match c with
  | Through _ => false
  | Direct _ => true
  end.

(** The text a list of writes puts on one of the two streams, by either
    route: what reaches the real stream when nothing is redirected. *)
Fixpoint text_on (s : Stream) (l : list (Channel * string)) : string :=
  match l with
  | [] => ""
  | (c, text) :: l' =>
      if stream_eqb s (stream_of c) then text +:+ text_on s l'
      else text_on s l'
  end.

(** The part written through the name [sys.stdout] or [sys.stderr]: what
    a redirection of the name collects. *)
Fixpoint through_on (s : Stream) (l : list (Channel * string)) : string :=
  match l with
  | [] => ""
  | (c, text) :: l' =>
      if stream_eqb s (stream_of c) && negb (is_direct c)
      then text +:+ through_on s l'
      else through_on s l'
  end.

(** The part written directly: what no redirection of the names reaches. *)
Fixpoint direct_on (s : Stream) (l : list (Channel * string)) : string :=
  match l with
  | [] => ""
  | (c, text) :: l' =>
      if stream_eqb s (stream_of c) && is_direct c
      then text +:+ direct_on s l'
      else direct_on s l'
  end.

(** The spec's wording of "the string begins with a scheme": a scheme name
    in the sense of RFC 3986 (a letter, then letters, digits, [+], [-] or
    [.]) followed by [://]. *)
Definition is_alpha (a : ascii) : bool :=
  let n := nat_of_ascii a in
  ((65 <=? n)%nat && (n <=? 90)%nat) || ((97 <=? n)%nat && (n <=? 122)%nat).

Definition is_scheme_char (a : ascii) : bool :=
  let n := nat_of_ascii a in
  is_alpha a || ((48 <=? n)%nat && (n <=? 57)%nat)
  || (n =? 43)%nat || (n =? 45)%nat || (n =? 46)%nat.

Fixpoint scheme_rest (s : string) : bool :=
  match s with
  | EmptyString => false
  | String a s' =>
      if String.prefix "://" s then true
      else if is_scheme_char a then scheme_rest s' else false
  end.

Definition begins_with_scheme (s : string) : bool :=
  match s with
  | EmptyString => false
  | String a s' => is_alpha a && scheme_rest s'
  end.

End Protocol.

(** ** The program *)

Module Cli.
Import Py Lib Protocol.
Local Open Scope py_scope.

Section WithLibraries.
Context {crawl4ai : Crawl4ai} {host : Host} {rich : Rich}.

Abbreviation MarkdownValue := (Markdown MarkdownGenerationResult).

(** Truth value of an [Optional[str | MarkdownGenerationResult]]. *)
Definition truthy (m : MarkdownValue) : bool :=
  match m with
  | MdNone => false
  | MdStr "" => false
  | MdStr _ => true
  | MdResult g => result_truth g
  end.

(** [print(result)] for an [Optional[str | MarkdownGenerationResult]]. *)
Definition print_result (m : MarkdownValue) : M unit :=
  match m with
  | MdNone => print "None" Out
  | MdStr s => print s Out
  | MdResult g => print_object (result_text g) Out
  end.

Definition new_crawler (headless verbose sleep_on_close : bool)
  : M (Crawler (CrawlResult MarkdownGenerationResult)) :=
  record (CallCrawlerNew headless verbose sleep_on_close) ;;
  ret (AsyncWebCrawler headless verbose sleep_on_close).

(** The crawler as an asynchronous context manager. *)
Definition session (c : Crawler (CrawlResult MarkdownGenerationResult))
  : ContextManager unit (Crawler (CrawlResult MarkdownGenerationResult)) :=
  {| cm_enter := (record CallAenter ;; perform (aenter c) ;; ret (tt, c));
     cm_exit := fun _ exc => (record (CallAexit exc) ;; perform (aexit c exc)) |}.

(** [await crawler.arun(url=url)] *)
Definition crawler_arun (c : Crawler (CrawlResult MarkdownGenerationResult))
  (url : string) : M (CrawlResult MarkdownGenerationResult) :=
  record (CallArun url) ;;
  perform (arun c url).

(** A function body that ends without [return] yields [None]. *)
Definition or_none (r : option MarkdownValue) : MarkdownValue :=
  match r with
  | Some m => m
  | None => MdNone
  end.

(** [crawl_webpage], lines 17-46. *)
Definition crawl_webpage (url : string) (verbose : bool) : M MarkdownValue :=
  if verbose then
    let* c := new_crawler true true false in
    let* r := with_ (session c) (fun crawler =>
                let* result := crawler_arun crawler url in
                ret (markdown result)) in
    ret (or_none r)
  else
    let* stdout := StringIO_new in
    let* stderr := StringIO_new in
    let* r := with_ (redirect Out stdout) (fun _ =>
              with_ (redirect Err stderr) (fun _ =>
                let* c := new_crawler true false false in
                with_ (session c) (fun crawler =>
                  let* result := crawler_arun crawler url in
                  ret (markdown result)))) in
    ret (match r with
         | Some (Some r') => or_none r'
         | _ => MdNone
         end).

(** The crawler object [crawl_webpage] builds for a given [verbose]. *)
Definition crawler_for (verbose : bool)
  : Crawler (CrawlResult MarkdownGenerationResult) :=
  AsyncWebCrawler true verbose false.

(** [url.startswith(("http://", "https://"))] *)
Definition startswith (s : string) (prefixes : list string) : bool :=
  existsb (fun p => String.prefix p s) prefixes.

(** Lines 61-62: the URL the rest of [fetch] works with. *)
Definition normalize (url : string) : string :=
  if negb (startswith url ["http://"; "https://"])
  then "https://" +:+ url
  else url.

(** [fetch], lines 50-71. *)
Definition fetch (url : string) (verbose : bool) : M unit :=
  let url := normalize url in
  try_except
    (let* result := asyncio_run (crawl_webpage url verbose) in
     if truthy result
     then print_result result
     else print "sad" Out)
    (fun e =>
       if is_Exception e
       then Some (print ("Error fetching " +:+ url +:+ ": " +:+ str_exc e) Err ;;
                  sys_exit 1)
       else None).

Definition chrome_paths : list string :=
  [ "chrome";
    "google-chrome";
    "chromium";
    "chromium-browser";
    "/Applications/Google Chrome.app/Contents/MacOS/Google Chrome";
    "/Applications/Chromium.app/Contents/MacOS/Chromium" ].

(** [shutil.which(path)] *)
Definition shutil_which (path : string) : M (option string) :=
  record (CallWhich path) ;;
  ret (which path).

Definition truthy_path (p : option string) : bool :=
  match p with
  | None => false
  | Some "" => false
  | Some _ => true
  end.

(** [any(shutil.which(path) for path in paths)]: the generator is consumed
    up to the first true element. *)
Fixpoint any_which (paths : list string) : M bool :=
  match paths with
  | [] => ret false
  | path :: rest =>
      let* found := shutil_which path in
      if truthy_path found then ret true else any_which rest
  end.

Record CompletedProcess : Type := mkCompleted {
  cp_returncode : Z;
  cp_stdout : string;
  cp_stderr : string
}.

(** Python's list display of the command, as it appears in the text of a
    [CalledProcessError]. *)
Fixpoint repr_items (argv : list string) : string :=
  match argv with
  | [] => ""
  | [a] => "'" +:+ a +:+ "'"
  | a :: rest => "'" +:+ a +:+ "', " +:+ repr_items rest
  end.

Definition called_process_text (argv : list string) (returncode : Z) : string :=
  "Command '[" +:+ repr_items argv +:+ "]' returned non-zero exit status "
  +:+ str_of_Z returncode +:+ ".".

(** [subprocess.run(argv, check=True, capture_output=True, text=True)] *)
Definition subprocess_run (argv : list string) : M CompletedProcess :=
  record (CallRun argv) ;;
  match run_process argv with
  | Exited rc out err =>
      if rc =? 0
      then ret (mkCompleted rc out err)
      else raise (CalledProcessError rc err (called_process_text argv rc))
  | ENOENT text => raise (FileNotFoundError text)
  | EOther text => raise (OSError text)
  end.

(** [setup], lines 75-130. *)
Definition setup : M unit :=
  try_except
    (let* chrome_found := any_which chrome_paths in
     (if negb chrome_found then
        print "Chrome not found. Installing Chrome via Playwright..." Out ;;
        subprocess_run ["playwright"; "install"; "chrome"] ;;
        print "Chrome installation completed!" Out
      else ret tt) ;;
     let* result := subprocess_run ["crawl4ai-setup"] in
     print "Setup completed successfully!" Out ;;
     print (cp_stdout result) Out)
    (fun e =>
       match e with
       | CalledProcessError _ stderr _ =>
           Some (print "Error: Setup failed!" Err ;;
                 print (newline +:+ "Error details:") Err ;;
                 print stderr Err ;;
                 print (newline +:+ "Possible solutions:") Err ;;
                 print "1. Ensure crawl4ai is properly installed in your environment" Err ;;
                 print "2. Try running 'poetry install' again" Err ;;
                 print "3. Check if you have proper permissions to install dependencies" Err ;;
                 sys_exit 1)
       | FileNotFoundError _ =>
           Some (print "Error: crawl4ai-setup command not found!" Err ;;
                 print (newline +:+ "Possible solutions:") Err ;;
                 print "1. Make sure you're in the poetry environment (run 'poetry shell')" Err ;;
                 print "2. Try reinstalling dependencies with 'poetry install'" Err ;;
                 sys_exit 1)
       | _ => None
       end).

(** The command line, once parsed by [typer]. *)
Inductive Command : Type :=
  | CmdFetch (url : string) (verbose : bool)
  | CmdSetup.

Definition app (cmd : Command) : M unit :=
  match cmd with
  | CmdFetch url verbose => fetch url verbose
  | CmdSetup => setup
  end.

(** What is seen of a finished process. *)
Record Process : Type := mkProcess {
  exit_code : Z;
  uncaught : option PyExc;    (* an exception the interpreter had to report *)
  final : World
}.

(** [main]: the command runs in a fresh process.  A command that returns
    ends the process with status 0; [SystemExit(code)] with the low eight
    bits of [code]; [KeyboardInterrupt] with status 130 and no report; any
    other exception that escapes with status 1 after the interpreter has
    reported it. *)
Definition main (cmd : Command) : Process :=
  match app cmd boot with
  | (Ret _, w) => mkProcess 0 None w
  | (Raise (SystemExit code), w) => mkProcess (code mod 256) None w
  | (Raise KeyboardInterrupt, w) => mkProcess 130 None w
  | (Raise e, w) => mkProcess 1 (Some e) w
  end.

Definition stdout_of (p : Process) : string := fd1 (final p).
Definition stderr_of (p : Process) : string := fd2 (final p).

(** *** Words for the properties *)

(** What the crawler's own writes leave on a real stream during
    [crawl_webpage url verbose]: all of them with the verbose flag, and
    without it those that do not go through the redirected names. *)
Definition crawler_output (s : Stream) (verbose : bool) (url : string)
  : string :=
  if verbose then text_on s (session_logs (crawler_for verbose) url)
  else direct_on s (session_logs (crawler_for verbose) url).

(** The world of a fresh process when [crawl_webpage url verbose] has
    ended. *)
Definition after_crawl (verbose : bool) (url : string) : World :=
  {| sys_stdout := RealStdout; sys_stderr := RealStderr;
     fd1 := crawler_output Out verbose url;
     fd2 := crawler_output Err verbose url;
     heap := if verbose then []
             else [through_on Out (session_logs (crawler_for verbose) url);
                   through_on Err (session_logs (crawler_for verbose) url)];
     calls := CallCrawlerNew true verbose false
              :: session_calls (crawler_for verbose) url |}.

(** The text [fetch] hands to [print] for an exception it catches. *)
Definition error_text (url : string) (e : PyExc) : string :=
  "Error fetching " +:+ url +:+ ": " +:+ str_exc e.

(** What [print(result)] makes of a markdown value. *)
Definition shown (m : Markdown MarkdownGenerationResult) : Rendering :=
  match m with
  | MdNone => rich_output "None"
  | MdStr s => rich_output s
  | MdResult g => Written (result_text g)
  end.

(** How the [except] clause of [fetch] ends, from a state [w] in which
    [sys.stderr] is the real standard error: the error line is written and
    [sys.exit(1)] follows, or [rich] rejects the line and its
    [MarkupError] leaves the clause. *)
Definition fetch_handler (url : string) (e : PyExc) (w : World)
  : Result unit * World :=
  match rich_output (error_text url e) with
  | Written out => (Raise (SystemExit 1), deliver RealStderr out w)
  | Rejected msg => (Raise (MarkupError msg), w)
  end.

(** The characters of a rendering that reach the file. *)
Definition written (r : Rendering) : string :=
  match r with
  | Written out => out
  | Rejected _ => ""
  end.

(** Two crawlers end each of their operations alike, whatever they log. *)
Definition same_outcomes
  (c1 c2 : Crawler (CrawlResult MarkdownGenerationResult)) : Prop :=
  outcome (aenter c1) = outcome (aenter c2)
  /\ (forall url, outcome (arun c1 url) = outcome (arun c2 url))
  /\ (forall exc, outcome (aexit c1 exc) = outcome (aexit c2 exc)).

Definition installer_cmd : list string := ["playwright"; "install"; "chrome"].
Definition setup_cmd : list string := ["crawl4ai-setup"].

(** Whether a browser binary is on the path under one of the known names. *)
Definition chrome_found : bool :=
  existsb (fun path => truthy_path (which path)) chrome_paths.

(** The paths [any] asks [shutil.which] about: up to the first hit. *)
Fixpoint probed (paths : list string) : list string :=
  match paths with
  | [] => []
  | path :: rest =>
      path :: (if truthy_path (which path) then [] else probed rest)
  end.

(** The exception [subprocess.run(argv, check=True, ...)] raises, if any. *)
Definition failure_of (argv : list string) : option PyExc :=
  match run_process argv with
  | Exited rc out err =>
      if rc =? 0 then None
      else Some (CalledProcessError rc err (called_process_text argv rc))
  | ENOENT text => Some (FileNotFoundError text)
  | EOther text => Some (OSError text)
  end.

Definition succeeds (argv : list string) : bool :=
  match failure_of argv with
  | None => true
  | Some _ => false
  end.

(** The first failure among the subprocesses [setup] starts, if any. *)
Definition setup_failure : option PyExc :=
  if chrome_found then failure_of setup_cmd
  else match failure_of installer_cmd with
       | Some e => Some e
       | None => failure_of setup_cmd
       end.

(** The classes the two [except] clauses of [setup] name. *)
Definition setup_handles (e : PyExc) : bool :=
  match e with
  | CalledProcessError _ _ _ | FileNotFoundError _ => true
  | _ => false
  end.

(** The text [setup] reports a failure with. *)
Definition lines (l : list string) : string :=
  fold_right (fun line rest => line +:+ newline +:+ rest) "" l.

(** What the matching [except] clause of [setup] writes to standard
    error.  The captured [stderr] of the failed command goes through
    [print]; when [rich] rejects it, the clause ends there. *)
Definition setup_diagnostics (e : PyExc) : string :=
  match e with
  | CalledProcessError _ stderr _ =>
      lines [ "Error: Setup failed!"; newline +:+ "Error details:" ]
      +:+ match rich_output stderr with
          | Written out =>
              out +:+
              lines [ newline +:+ "Possible solutions:";
                      "1. Ensure crawl4ai is properly installed in your environment";
                      "2. Try running 'poetry install' again";
                      "3. Check if you have proper permissions to install dependencies" ]
          | Rejected _ => ""
          end
  | FileNotFoundError _ =>
      lines [ "Error: crawl4ai-setup command not found!";
              newline +:+ "Possible solutions:";
              "1. Make sure you're in the poetry environment (run 'poetry shell')";
              "2. Try reinstalling dependencies with 'poetry install'" ]
  | _ => ""
  end.

Definition invoked (argv : list string) (p : Process) : Prop :=
  In (CallRun argv) (calls (final p)).

(** [result.stdout] of a finished command. *)
Definition captured_stdout (argv : list string) : string :=
  match run_process argv with
  | Exited _ out _ => out
  | ENOENT _ | EOther _ => ""
  end.



(** How the [except] clause that matches [e] in [setup] ends: with
    [SystemExit(1)], or earlier with the [MarkupError] of a print. *)
Definition setup_handler_exit (e : PyExc) : PyExc :=
  match e with
  | CalledProcessError _ stderr _ =>
      match rich_output stderr with
      | Written _ => SystemExit 1
      | Rejected msg => MarkupError msg
      end
  | _ => SystemExit 1
  end.

End WithLibraries.

End Cli.

(** ** Sample libraries and hosts, for the concrete instances below *)

Module Samples.
Import Py Lib.

Definition silent {A} (a : A) : Behaviour A := mkBehaviour [] (inr a).

Definition noisy {A} (a : A) : Behaviour A :=
  mkBehaviour [(Through Out, "[INIT] crawler"); (Through Err, "warning")]
    (inr a).

Definition failing {A} (e : PyExc) : Behaviour A :=
  mkBehaviour [(Through Out, "[ERROR] crawl failed")] (inl e).

(** A library whose crawl of any page ends as [page] says. *)
Definition library (page : string -> Behaviour (CrawlResult string)) : Crawl4ai :=
  {| MarkdownGenerationResult := string;
     result_truth := fun _ => true;
     result_text := fun g => g;
     AsyncWebCrawler := fun _ _ _ => mkCrawler (noisy tt) page (fun _ => noisy false) |}.

Definition returning (m : Markdown string) : Crawl4ai :=
  library (fun _ => noisy (mkCrawlResult m)).

Definition raising (e : PyExc) : Crawl4ai :=
  library (fun _ => failing e).

(** A library that logs only when asked to be verbose, and crawls alike
    either way. *)
Definition discreet : Crawl4ai :=
  {| MarkdownGenerationResult := string;
     result_truth := fun _ => true;
     result_text := fun g => g;
     AsyncWebCrawler := fun _ verbose _ =>
       if verbose
       then mkCrawler (noisy tt)
              (fun _ => noisy (mkCrawlResult (MdStr "# Title")))
              (fun _ => noisy false)
       else mkCrawler (silent tt)
              (fun _ => silent (mkCrawlResult (MdStr "# Title")))
              (fun _ => silent false) |}.

(** A host where only the listed binaries are on the path and each command
    ends as [run] says. *)
Definition machine (installed : list string) (run : list string -> ProcOutcome)
  : Host :=
  {| which := fun path =>
       if existsb (String.eqb path) installed
       then Some ("/usr/bin/" +:+ path) else None;
     run_process := run |}.

Definition all_succeed (argv : list string) : ProcOutcome :=
  Exited 0 "done" "".

Definition installer_fails (argv : list string) : ProcOutcome :=
  match argv with
  | "playwright" :: _ => Exited 1 "" "download failed"
  | _ => Exited 0 "done" ""
  end.

Definition setup_missing (argv : list string) : ProcOutcome :=
  match argv with
  | ["crawl4ai-setup"] => ENOENT "[Errno 2] No such file or directory: 'crawl4ai-setup'"
  | _ => Exited 0 "done" ""
  end.

Definition timeout : PyExc :=
  OtherException "TimeoutError" "Page.goto: Timeout 30000ms exceeded.".

(** A library whose crawler swallows, in [__aexit__], what [arun] raised. *)
Definition swallowing (e : PyExc) : Crawl4ai :=
  {| MarkdownGenerationResult := string;
     result_truth := fun _ => true;
     result_text := fun g => g;
     AsyncWebCrawler := fun _ _ _ =>
       mkCrawler (silent tt) (fun _ => failing e)
         (fun exc => silent (match exc with Some _ => true | None => false end)) |}.

(** A library whose browser does not start. *)
Definition unstartable (e : PyExc) : Crawl4ai :=
  {| MarkdownGenerationResult := string;
     result_truth := fun _ => true;
     result_text := fun g => g;
     AsyncWebCrawler := fun _ _ _ =>
       mkCrawler (failing e)
         (fun _ => silent (mkCrawlResult (MdStr "# Title")))
         (fun _ => silent false) |}.

(** A library whose crawl succeeds and whose browser fails to close. *)
Definition unclosable (e : PyExc) : Crawl4ai :=
  {| MarkdownGenerationResult := string;
     result_truth := fun _ => true;
     result_text := fun g => g;
     AsyncWebCrawler := fun _ _ _ =>
       mkCrawler (silent tt)
         (fun _ => silent (mkCrawlResult (MdStr "# Title")))
         (fun _ => failing e) |}.

Definition playwright_missing (argv : list string) : ProcOutcome :=
  match argv with
  | "playwright" :: _ =>
      ENOENT "[Errno 2] No such file or directory: 'playwright'"
  | _ => Exited 0 "done" ""
  end.

Definition setup_denied (argv : list string) : ProcOutcome :=
  match argv with
  | ["crawl4ai-setup"] => EOther "[Errno 13] Permission denied: 'crawl4ai-setup'"
  | _ => Exited 0 "done" ""
  end.

(** A host without a browser, where the installer and [crawl4ai-setup]
    both succeed and print a text that holds a bracketed closing tag. *)
Definition setup_prints_tag (argv : list string) : ProcOutcome :=
  Exited 0 "ok [/x] done" "".

Definition tagged_output : Host := machine [] setup_prints_tag.

(** An exception whose message holds a bracketed closing tag. *)
Definition bad_tag : PyExc := OtherException "ValueError" "bad tag [/x]".

(** A library whose crawler also writes straight to the standard output
    the process started with. *)
Definition bypassing : Crawl4ai :=
  {| MarkdownGenerationResult := string;
     result_truth := fun _ => true;
     result_text := fun g => g;
     AsyncWebCrawler := fun _ _ _ =>
       mkCrawler (silent tt)
         (fun _ =>
            mkBehaviour [ (Through Out, "[FETCH] page");
                          (Direct Out, "browser: started") ]
              (inr (mkCrawlResult (MdStr "# Title"))))
         (fun _ => silent false) |}.

(** The console for the runs below.  On the texts that are not plain it
    does what [rich] does with a text whose first opening bracket starts a
    closing tag ([MarkupError], with [rich]'s message), and writes any other
    text as it is; the runs print no other markup, no emoji code and no
    line of more than 80 characters. *)
Fixpoint tag_end (s : string) : option string :=
  match s with
  | EmptyString => None
  | String a s' =>
      if (nat_of_ascii a =? 93)%nat then Some "]"
      else match tag_end s' with
           | Some t => Some (String a t)
           | None => None
           end
  end.

Fixpoint first_bracket (pos : nat) (s : string) : option (nat * string) :=
  match s with
  | EmptyString => None
  | String a s' =>
      if (nat_of_ascii a =? 91)%nat
      then (if String.prefix "/" s'
            then match tag_end s' with
                 | Some t => Some (pos, String a t)
                 | None => None
                 end
            else None)
      else first_bracket (S pos) s'
  end.

Definition console : Rich :=
  {| render := fun text =>
       match first_bracket 0 text with
       | Some (pos, tag) =>
           Rejected ("closing tag '" +:+ tag +:+ "' at position "
                     +:+ str_of_Z (Z.of_nat pos)
                     +:+ " doesn't match any open tag")
       | None => Written (text +:+ newline)
       end |}.

Definition no_playwright : Host := machine [] playwright_missing.
Definition locked_down : Host := machine ["chrome"] setup_denied.

Definition bare : Host := machine [] all_succeed.
Definition with_chromium : Host := machine ["chromium"] all_succeed.
Definition broken_installer : Host := machine [] installer_fails.
Definition no_setup : Host := machine ["chrome"] setup_missing.

End Samples.

(** ** Properties *)

Import Py Lib Protocol Cli.
Local Open Scope py_scope.

(** *** Text streams *)

Lemma append_nil_r (s : string) : s +:+ "" = s.
Proof.
  induction s as [|a s IH]; [reflexivity|].
  change (String a (s +:+ "") = String a s). by rewrite IH.
Qed.

Lemma append_assoc (a b c : string) : (a +:+ b) +:+ c = a +:+ (b +:+ c).
Proof.
  induction a as [|x a IH]; [reflexivity|].
  change (String x ((a +:+ b) +:+ c) = String x (a +:+ (b +:+ c))).
  by rewrite IH.
Qed.

(** *** External behaviours *)

Lemma emit_absorb l w : emit l w = (Ret tt, absorb l w).
Proof.
  revert w. induction l as [|[c t] l IH]; intros w; [reflexivity|].
  cbn. apply IH.
Qed.

Lemma perform_absorb {A} (b : Behaviour A) w :
  perform b w = (result_of b, absorb (logs b) w).
Proof.
  unfold perform, bind, result_of. rewrite emit_absorb.
  by destruct (outcome b).
Qed.

Lemma absorb_app l1 l2 w : absorb (l1 ++ l2) w = absorb l2 (absorb l1 w).
Proof.
  revert w. induction l1 as [|[c t] l1 IH]; intros w; [reflexivity|].
  cbn. apply IH.
Qed.

Lemma deliver_add_calls t text cs w :
  deliver t text (add_calls cs w) = add_calls cs (deliver t text w).
Proof. by destruct t. Qed.

Lemma absorb_add_calls l cs w :
  absorb l (add_calls cs w) = add_calls cs (absorb l w).
Proof.
  revert w. induction l as [|[c t] l IH]; intros w; [reflexivity|].
  cbn [absorb].
  replace (destination c (add_calls cs w)) with (destination c w)
    by by destruct c as [[]|[]].
  by rewrite deliver_add_calls, IH.
Qed.

Lemma add_calls_add_calls cs1 cs2 w :
  add_calls cs2 (add_calls cs1 w) = add_calls (cs1 ++ cs2) w.
Proof. unfold add_calls. cbn. by rewrite <- app_assoc. Qed.

(** With the standard bindings every write, by either route, reaches the
    real streams. *)
Lemma absorb_real l f1 f2 hp cl :
  absorb l (mkWorld RealStdout RealStderr f1 f2 hp cl) =
  mkWorld RealStdout RealStderr
    (f1 +:+ text_on Out l) (f2 +:+ text_on Err l) hp cl.
Proof.
  revert f1 f2. induction l as [|[[[]|[]] t] l IH]; intros f1 f2.
  - cbn. by rewrite !append_nil_r.
  - cbn. rewrite IH. by rewrite append_assoc.
  - cbn. rewrite IH. by rewrite append_assoc.
  - cbn. rewrite IH. by rewrite append_assoc.
  - cbn. rewrite IH. by rewrite append_assoc.
Qed.

(** Writing into one of the two youngest buffers of the heap. *)
Lemma alter_last_but_one (f : string -> string) (hp : list string) a b :
  alter f (length hp) (hp ++ [a; b]) = hp ++ [f a; b].
Proof.
  pose proof (alter_app_r f hp [a; b] 0) as H.
  by rewrite Nat.add_0_r in H.
Qed.

Lemma alter_last (f : string -> string) (hp : list string) a b :
  alter f (S (length hp)) (hp ++ [a; b]) = hp ++ [a; f b].
Proof.
  pose proof (alter_app_r f hp [a; b] 1) as H.
  by rewrite Nat.add_1_r in H.
Qed.

(** With [sys.stdout] and [sys.stderr] bound to the two youngest buffers,
    the writes through the names are collected there and only the direct
    ones reach the real streams. *)
Lemma absorb_buffers l f1 f2 hp a b cl :
  absorb l (mkWorld (StringIO (length hp)) (StringIO (S (length hp)))
              f1 f2 (hp ++ [a; b]) cl) =
  mkWorld (StringIO (length hp)) (StringIO (S (length hp)))
    (f1 +:+ direct_on Out l) (f2 +:+ direct_on Err l)
    (hp ++ [a +:+ through_on Out l; b +:+ through_on Err l]) cl.
Proof.
  revert f1 f2 a b.
  induction l as [|[[[]|[]] t] l IH]; intros f1 f2 a b.
  - cbn. by rewrite !append_nil_r.
  - cbn. rewrite alter_last_but_one, IH. by rewrite append_assoc.
  - cbn. rewrite alter_last, IH. by rewrite append_assoc.
  - cbn. rewrite IH. by rewrite append_assoc.
  - cbn. rewrite IH. by rewrite append_assoc.
Qed.

(** *** [crawl_webpage] computes the session of its crawler *)

Section CrawlWebpage.
Context {crawl4ai : Crawl4ai}.
Implicit Types (c : Crawler (CrawlResult MarkdownGenerationResult)).

Lemma delegate_result_session c url :
  delegate_result c url =
  match session_result c url with
  | Ret r => Ret (or_none r)
  | Raise e => Raise e
  end.
Proof.
  unfold delegate_result, session_result.
  destruct (outcome (aenter c)); [reflexivity|].
  destruct (outcome (arun c url)) as [e|r].
  - by destruct (outcome (aexit c (Some e))) as [|[]].
  - by destruct (outcome (aexit c None)).
Qed.

Lemma with_session c url w :
  with_ (session c)
    (fun crawler =>
       let* result := crawler_arun crawler url in
       ret (markdown result)) w =
  (session_result c url,
   add_calls (session_calls c url) (absorb (session_logs c url) w)).
Proof.
  unfold with_, session, crawler_arun, session_result, session_calls,
    session_logs.
  cbn [cm_enter cm_exit]. unfold bind, record, modify, ret.
  rewrite !perform_absorb. unfold result_of.
  destruct (outcome (aenter c)) as [e0|[]].
  { by rewrite absorb_add_calls, app_nil_r. }
  rewrite !perform_absorb. unfold result_of.
  destruct (outcome (arun c url)) as [e|r]; cbn [exit_arg].
  - rewrite !perform_absorb. unfold result_of.
    rewrite !absorb_app, !absorb_add_calls, !add_calls_add_calls.
    by destruct (outcome (aexit c (Some e))) as [|[]].
  - rewrite !perform_absorb. unfold result_of.
    rewrite !absorb_app, !absorb_add_calls, !add_calls_add_calls.
    by destruct (outcome (aexit c None)).
Qed.

Lemma bind_unfold {A B} (m : M A) (k : A -> M B) w :
  bind m k w =
  match m w with
  | (Ret a, w1) => k a w1
  | (Raise e, w1) => (Raise e, w1)
  end.
Proof. reflexivity. Qed.

Lemma new_crawler_run h v s w :
  new_crawler h v s w =
  (Ret (AsyncWebCrawler h v s), add_calls [CallCrawlerNew h v s] w).
Proof. reflexivity. Qed.

Lemma crawl_webpage_verbose url w :
  crawl_webpage url true w =
  (delegate_result (crawler_for true) url,
   add_calls
     (CallCrawlerNew true true false :: session_calls (crawler_for true) url)
     (absorb (session_logs (crawler_for true) url) w)).
Proof.
  rewrite delegate_result_session.
  unfold crawl_webpage.
  rewrite bind_unfold, new_crawler_run. fold (crawler_for true).
  rewrite bind_unfold, with_session.
  rewrite absorb_add_calls, add_calls_add_calls.
  by destruct (session_result (crawler_for true) url).
Qed.

(** Leaving a redirection puts back the binding found on entry, however
    the body ends. *)
Lemma with_redirect {B} (s : Stream) (new : Target) (body : Target -> M B) w :
  with_ (redirect s new) body w =
  (match fst (body new (rebind s new w)) with
   | Ret b => Ret (Some b)
   | Raise e => Raise e
   end,
   rebind s (binding s w) (snd (body new (rebind s new w)))).
Proof.
  unfold with_, redirect. cbn [cm_enter cm_exit].
  unfold bind, sys_stream, set_sys_stream, modify, ret.
  by destruct (body new (rebind s new w)) as [[b|e] w2].
Qed.

(** Without [verbose] what the crawler writes through the names is
    collected in two fresh [io.StringIO] objects, and what it writes
    directly reaches the real streams; the standard bindings are as before
    the call. *)
Lemma crawl_webpage_quiet url w :
  crawl_webpage url false w =
  (delegate_result (crawler_for false) url,
   mkWorld (sys_stdout w) (sys_stderr w)
     (fd1 w +:+ direct_on Out (session_logs (crawler_for false) url))
     (fd2 w +:+ direct_on Err (session_logs (crawler_for false) url))
     (heap w ++ [through_on Out (session_logs (crawler_for false) url);
                 through_on Err (session_logs (crawler_for false) url)])
     (calls w ++ CallCrawlerNew true false false
              :: session_calls (crawler_for false) url)).
Proof.
  rewrite delegate_result_session.
  unfold crawl_webpage.
  rewrite bind_unfold. unfold StringIO_new at 1.
  rewrite bind_unfold. unfold StringIO_new at 1.
  rewrite bind_unfold, !with_redirect.
  rewrite bind_unfold, new_crawler_run. fold (crawler_for false).
  rewrite with_session.
  destruct w as [so se f1 f2 hp cl].
  cbn [rebind binding sys_stdout sys_stderr fd1 fd2 heap calls add_calls
       fst snd].
  rewrite length_app, Nat.add_1_r.
  replace ((hp ++ [""]) ++ [""]) with (hp ++ [""; ""])
    by (by rewrite <- app_assoc).
  rewrite absorb_add_calls, absorb_buffers.
  cbn [rebind binding sys_stdout sys_stderr fd1 fd2 heap calls add_calls
       fst snd].
  rewrite <- app_assoc. cbn [app].
  by destruct (session_result (crawler_for false) url) as [[m|]|e].
Qed.

End CrawlWebpage.

(** *** Printing *)

Section Printing.
Context {rich : Rich}.

Lemma rich_output_plain text :
  plain text = true -> rich_output text = Written (text +:+ newline).
Proof. intros H. unfold rich_output. by rewrite H. Qed.

Lemma print_run text file w :
  print text file w =
  match rich_output text with
  | Written out => (Ret tt, deliver (binding file w) out w)
  | Rejected msg => (Raise (MarkupError msg), w)
  end.
Proof.
  unfold print. rewrite bind_unfold. unfold sys_stream.
  by destruct (rich_output text).
Qed.

(** A fixed text that is plain is written as it is. *)
Lemma print_plain text file w :
  plain text = true ->
  print text file w =
  (Ret tt, deliver (binding file w) (text +:+ newline) w).
Proof. intros H. by rewrite print_run, (rich_output_plain text H). Qed.

End Printing.

(** *** [fetch] *)

Section Fetch.
Context {crawl4ai : Crawl4ai} {host : Host} {rich : Rich}.

Lemma crawl_webpage_boot url verbose :
  crawl_webpage url verbose boot =
  (delegate_result (crawler_for verbose) url, after_crawl verbose url).
Proof.
  destruct verbose.
  - rewrite crawl_webpage_verbose. unfold boot. by rewrite absorb_real.
  - by rewrite crawl_webpage_quiet.
Qed.

Lemma fetch_handler_run url verbose e :
  (print ("Error fetching " +:+ normalize url +:+ ": " +:+ str_exc e) Err ;;
   sys_exit 1) (after_crawl verbose (normalize url)) =
  fetch_handler (normalize url) e (after_crawl verbose (normalize url)).
Proof.
  rewrite bind_unfold, print_run. unfold fetch_handler.
  fold (error_text (normalize url) e).
  by destruct (rich_output (error_text (normalize url) e)).
Qed.

(** The whole of [fetch] in a fresh process, by the way its crawl ends. *)
Lemma fetch_boot url verbose :
  fetch url verbose boot =
  match delegate_result (crawler_for verbose) (normalize url) with
  | Ret m =>
      if truthy m
      then match shown m with
           | Written out =>
               (Ret tt,
                deliver RealStdout out (after_crawl verbose (normalize url)))
           | Rejected msg =>
               fetch_handler (normalize url) (MarkupError msg)
                 (after_crawl verbose (normalize url))
           end
      else (Ret tt,
            deliver RealStdout ("sad" +:+ newline)
              (after_crawl verbose (normalize url)))
  | Raise e =>
      if is_Exception e
      then fetch_handler (normalize url) e
             (after_crawl verbose (normalize url))
      else (Raise e, after_crawl verbose (normalize url))
  end.
Proof.
  unfold fetch, try_except, asyncio_run.
  rewrite bind_unfold, crawl_webpage_boot.
  destruct (delegate_result (crawler_for verbose) (normalize url)) as [m|e].
  - destruct (truthy m) eqn:Ht.
    + destruct m as [|s|g]; [discriminate| |reflexivity].
      unfold print_result, shown. rewrite print_run.
      destruct (rich_output s) as [out|msg]; [reflexivity|].
      cbn [is_Exception MarkupError]. apply fetch_handler_run.
    + by rewrite (print_plain "sad" Out _ eq_refl).
  - destruct (is_Exception e); [|reflexivity].
    apply fetch_handler_run.
Qed.

Lemma main_fetch url verbose :
  main (CmdFetch url verbose) =
  match fetch url verbose boot with
  | (Ret _, w) => mkProcess 0 None w
  | (Raise (SystemExit code), w) => mkProcess (code mod 256) None w
  | (Raise KeyboardInterrupt, w) => mkProcess 130 None w
  | (Raise e, w) => mkProcess 1 (Some e) w
  end.
Proof. reflexivity. Qed.

Lemma binding_absorb s l w : binding s (absorb l w) = binding s w.
Proof.
  revert w. induction l as [|[c t] l IH]; intros w; [reflexivity|].
  cbn [absorb]. rewrite IH. by destruct s, (destination c w).
Qed.

(** [crawl_webpage] ends as its crawler's session does and leaves the
    standard bindings as it found them. *)
Lemma crawl_webpage_result url verbose w :
  fst (crawl_webpage url verbose w) =
  delegate_result (crawler_for verbose) url.
Proof.
  destruct verbose; [by rewrite crawl_webpage_verbose|].
  by rewrite crawl_webpage_quiet.
Qed.

Lemma crawl_webpage_bindings url verbose w s :
  binding s (snd (crawl_webpage url verbose w)) = binding s w.
Proof.
  destruct verbose.
  - rewrite crawl_webpage_verbose. cbn [snd].
    rewrite <- (binding_absorb s (session_logs (crawler_for true) url) w).
    by destruct s.
  - rewrite crawl_webpage_quiet. by destruct s.
Qed.

Lemma same_outcomes_result c1 c2 url :
  same_outcomes c1 c2 -> delegate_result c1 url = delegate_result c2 url.
Proof.
  intros (Henter & Hrun & Hexit). unfold delegate_result.
  rewrite Henter, Hrun. destruct (outcome (aenter c2)); [reflexivity|].
  destruct (outcome (arun c2 url)); by rewrite Hexit.
Qed.

Lemma truthy_nonempty (s : string) :
  s <> "" -> truthy (MdStr s) = true.
Proof. by destruct s. Qed.

End Fetch.

(** *** [setup] *)

Section Setup.
Context {crawl4ai : Crawl4ai} {host : Host} {rich : Rich}.

Lemma add_calls_nil w : add_calls [] w = w.
Proof. destruct w. unfold add_calls. cbn. by rewrite app_nil_r. Qed.

Lemma any_which_run paths w :
  any_which paths w =
  (Ret (existsb (fun path => truthy_path (which path)) paths),
   add_calls (map CallWhich (probed paths)) w).
Proof.
  revert w. induction paths as [|path rest IH]; intros w.
  - cbn. by rewrite add_calls_nil.
  - cbn [any_which existsb probed]. rewrite bind_unfold.
    unfold shutil_which at 1. rewrite bind_unfold. cbn [record modify ret].
    destruct (truthy_path (which path)); cbn [orb].
    + reflexivity.
    + rewrite IH. cbn [map]. by rewrite add_calls_add_calls.
Qed.

(** A failure of [subprocess.run] is one of three classes, none of which
    is [SystemExit]. *)
Lemma failure_of_class argv e :
  failure_of argv = Some e ->
  match e with
  | CalledProcessError _ _ _ | FileNotFoundError _ | OSError _ => True
  | _ => False
  end.
Proof.
  unfold failure_of. destruct (run_process argv) as [rc out err| |].
  - destruct (rc =? 0); [discriminate|]. by intros [= <-].
  - by intros [= <-].
  - by intros [= <-].
Qed.

Ltac run_setup :=
  repeat first
    [ rewrite bind_unfold
    | rewrite print_plain by reflexivity
    | rewrite print_run
    | progress cbn -[rich_output probed chrome_paths print bind] ].

Ltac case_rendering :=
  repeat match goal with
         | |- context [rich_output ?t] => destruct (rich_output t)
         end.

Ltac finish_setup :=
  rewrite <- ?app_assoc, ?app_nil_r; repeat split; try reflexivity;
  rewrite ?append_assoc, ?append_nil_r; reflexivity.

Lemma setup_boot :
  fst (setup boot) =
    match setup_failure with
    | None =>
        match rich_output (captured_stdout setup_cmd) with
        | Written _ => Ret tt
        | Rejected msg => Raise (MarkupError msg)
        end
    | Some e =>
        if setup_handles e then Raise (setup_handler_exit e) else Raise e
    end
  /\ calls (snd (setup boot)) =
       map CallWhich (probed chrome_paths)
       ++ (if chrome_found then [] else [CallRun installer_cmd])
       ++ (if chrome_found || succeeds installer_cmd
           then [CallRun setup_cmd] else [])
  /\ fd2 (snd (setup boot)) =
       match setup_failure with
       | Some e => setup_diagnostics e
       | None => ""
       end
  /\ fd1 (snd (setup boot)) =
       (if chrome_found then ""
        else "Chrome not found. Installing Chrome via Playwright..."
             +:+ newline
             +:+ (if succeeds installer_cmd
                  then "Chrome installation completed!" +:+ newline else ""))
       +:+ (if (chrome_found || succeeds installer_cmd) && succeeds setup_cmd
            then "Setup completed successfully!" +:+ newline
                 +:+ written (rich_output (captured_stdout setup_cmd))
            else "").
Proof.
  unfold setup, try_except. rewrite bind_unfold, any_which_run.
  unfold setup_failure, succeeds, failure_of, subprocess_run,
    captured_stdout, setup_diagnostics, setup_handler_exit.
  fold chrome_found. fold installer_cmd. fold setup_cmd.
  destruct chrome_found; cbn [negb orb andb].
  - destruct (run_process setup_cmd) as [rc out err| |];
      [destruct (rc =? 0)| |]; run_setup; case_rendering; run_setup;
      finish_setup.
  - destruct (run_process installer_cmd) as [rc out err| |];
      [destruct (rc =? 0)| |].
    + destruct (run_process setup_cmd) as [rc' out' err'| |];
        [destruct (rc' =? 0)| |]; run_setup; case_rendering; run_setup;
        finish_setup.
    + run_setup; case_rendering; run_setup; finish_setup.
    + run_setup; finish_setup.
    + run_setup; finish_setup.
Qed.

End Setup.

(** *** What a [fetch] process shows, by the way its crawl ends *)

Section FetchProcess.
Context {crawl4ai : Crawl4ai} {host : Host} {rich : Rich}.

(** The crawl yields a value that counts as false. *)
Lemma fetch_process_sentinel url verbose m :
  delegate_result (crawler_for verbose) (normalize url) = Ret m ->
  truthy m = false ->
  main (CmdFetch url verbose) =
  mkProcess 0 None
    (deliver RealStdout ("sad" +:+ newline)
       (after_crawl verbose (normalize url))).
Proof. intros H Ht. by rewrite main_fetch, fetch_boot, H, Ht. Qed.

(** The crawl yields a value that counts as true and that [print]
    accepts. *)
Lemma fetch_process_prints url verbose m out :
  delegate_result (crawler_for verbose) (normalize url) = Ret m ->
  truthy m = true ->
  shown m = Written out ->
  main (CmdFetch url verbose) =
  mkProcess 0 None
    (deliver RealStdout out (after_crawl verbose (normalize url))).
Proof. intros H Ht Hs. by rewrite main_fetch, fetch_boot, H, Ht, Hs. Qed.

(** The process of a [fetch] whose [except] clause runs for [e]. *)
Lemma handler_process url verbose e :
  match fetch_handler (normalize url) e
          (after_crawl verbose (normalize url)) with
  | (Ret _, w) => mkProcess 0 None w
  | (Raise (SystemExit code), w) => mkProcess (code mod 256) None w
  | (Raise KeyboardInterrupt, w) => mkProcess 130 None w
  | (Raise e', w) => mkProcess 1 (Some e') w
  end =
  match rich_output (error_text (normalize url) e) with
  | Written out =>
      mkProcess 1 None
        (deliver RealStderr out (after_crawl verbose (normalize url)))
  | Rejected msg =>
      mkProcess 1 (Some (MarkupError msg))
        (after_crawl verbose (normalize url))
  end.
Proof.
  unfold fetch_handler.
  by destruct (rich_output (error_text (normalize url) e)).
Qed.

(** The crawl raises an instance of [Exception]. *)
Lemma fetch_process_catches url verbose e :
  delegate_result (crawler_for verbose) (normalize url) = Raise e ->
  is_Exception e = true ->
  main (CmdFetch url verbose) =
  match rich_output (error_text (normalize url) e) with
  | Written out =>
      mkProcess 1 None
        (deliver RealStderr out (after_crawl verbose (normalize url)))
  | Rejected msg =>
      mkProcess 1 (Some (MarkupError msg))
        (after_crawl verbose (normalize url))
  end.
Proof.
  intros H He. rewrite main_fetch, fetch_boot, H, He.
  apply handler_process.
Qed.

(** The crawl yields a string that [print] rejects: the [MarkupError] is
    an [Exception] raised inside the [try], so the [except] clause runs
    for it. *)
Lemma fetch_process_rejected url verbose m msg :
  delegate_result (crawler_for verbose) (normalize url) = Ret m ->
  truthy m = true ->
  shown m = Rejected msg ->
  main (CmdFetch url verbose) =
  match rich_output (error_text (normalize url) (MarkupError msg)) with
  | Written out =>
      mkProcess 1 None
        (deliver RealStderr out (after_crawl verbose (normalize url)))
  | Rejected msg' =>
      mkProcess 1 (Some (MarkupError msg'))
        (after_crawl verbose (normalize url))
  end.
Proof.
  intros H Ht Hs. rewrite main_fetch, fetch_boot, H, Ht, Hs.
  apply handler_process.
Qed.

Lemma fetch_process_calls url verbose :
  calls (final (main (CmdFetch url verbose))) =
  calls (after_crawl verbose (normalize url)).
Proof.
  destruct (delegate_result (crawler_for verbose) (normalize url))
    as [m|e] eqn:H.
  - destruct (truthy m) eqn:Ht.
    + destruct (shown m) as [out|msg] eqn:Hs.
      * by rewrite (fetch_process_prints url verbose m out H Ht Hs).
      * rewrite (fetch_process_rejected url verbose m msg H Ht Hs).
        by destruct (rich_output _).
    + by rewrite (fetch_process_sentinel url verbose m H Ht).
  - destruct (is_Exception e) eqn:He.
    + rewrite (fetch_process_catches url verbose e H He).
      by destruct (rich_output _).
    + rewrite main_fetch, fetch_boot, H, He. by destruct e.
Qed.

Lemma fetch_process_stdout url verbose :
  stdout_of (main (CmdFetch url verbose)) =
  crawler_output Out verbose (normalize url) +:+
  match delegate_result (crawler_for verbose) (normalize url) with
  | Ret m => if truthy m then written (shown m) else "sad" +:+ newline
  | Raise _ => ""
  end.
Proof.
  destruct (delegate_result (crawler_for verbose) (normalize url))
    as [m|e] eqn:H.
  - destruct (truthy m) eqn:Ht.
    + destruct (shown m) as [out|msg] eqn:Hs.
      * by rewrite (fetch_process_prints url verbose m out H Ht Hs).
      * rewrite (fetch_process_rejected url verbose m msg H Ht Hs).
        destruct (rich_output _); cbn; by rewrite append_nil_r.
    + by rewrite (fetch_process_sentinel url verbose m H Ht).
  - destruct (is_Exception e) eqn:He.
    + rewrite (fetch_process_catches url verbose e H He).
      destruct (rich_output _); cbn; by rewrite append_nil_r.
    + rewrite main_fetch, fetch_boot, H, He.
      destruct e; cbn; by rewrite append_nil_r.
Qed.

End FetchProcess.

(** ** The claims about [fetch] and [crawl_webpage] *)

Section FetchClaims.
Context {crawl4ai : Crawl4ai} {host : Host} {rich : Rich}.

(** C1 (amended): for every URL and every exception raised by the crawling
    delegate that is an instance of [Exception], the [except] clause of
    [fetch] runs for it and the process exits with code 1; when
    [rich.print] accepts the error message, the message is written to
    standard error and [fetch] ends with [sys.exit(1)]. *)
Theorem fetch_catches_Exception url verbose e :
  is_Exception e = true ->
  delegate_result (crawler_for verbose) (normalize url) = Raise e ->
  let p := main (CmdFetch url verbose) in
  fetch url verbose boot
    = fetch_handler (normalize url) e (after_crawl verbose (normalize url))
  /\ exit_code p = 1
  /\ stdout_of p = crawler_output Out verbose (normalize url)
  /\ (forall out,
        rich_output (error_text (normalize url) e) = Written out ->
        fst (fetch url verbose boot) = Raise (SystemExit 1)
        /\ uncaught p = None
        /\ stderr_of p = crawler_output Err verbose (normalize url) +:+ out).
Proof.
  intros He H. cbn zeta.
  rewrite (fetch_process_catches url verbose e H He).
  rewrite fetch_boot, H, He. unfold fetch_handler.
  destruct (rich_output (error_text (normalize url) e)) as [out|msg].
  - split; [reflexivity|]. split; [reflexivity|].
    split; [reflexivity|].
    intros out' [= <-]. by repeat split.
  - split; [reflexivity|]. split; [reflexivity|].
    split; [reflexivity|].
    intros out' [=].
Qed.

(** C2 (amended): for every input URL string, the URL [fetch] works with is
    the input itself when the input begins with "http://" or "https://",
    and the input prefixed with "https://" otherwise; the crawler is asked
    for that URL and for no other. *)
Theorem fetch_url_normalized url verbose :
  normalize url =
    (if String.prefix "http://" url || String.prefix "https://" url
     then url else "https://" +:+ url)
  /\ calls (final (main (CmdFetch url verbose))) =
       CallCrawlerNew true verbose false
       :: CallAenter
       :: match outcome (aenter (crawler_for verbose)) with
          | inl _ => []
          | inr _ =>
              [ CallArun (normalize url);
                CallAexit
                  (exit_arg
                     (outcome (arun (crawler_for verbose) (normalize url)))) ]
          end.
Proof.
  split.
  - unfold normalize, startswith. cbn [existsb]. rewrite orb_false_r.
    by destruct (String.prefix "http://" url || String.prefix "https://" url).
  - by rewrite fetch_process_calls.
Qed.

(** C5: for every URL, when the crawling delegate ends without raising and
    yields no content ([None]), [fetch] returns normally and what it has
    done after the crawl is to print the sentinel "sad" to [sys.stdout]. *)
Theorem fetch_no_content_prints_sentinel url verbose w :
  delegate_result (crawler_for verbose) (normalize url) = Ret MdNone ->
  fetch url verbose w =
  (Ret tt,
   deliver (sys_stdout w) ("sad" +:+ newline)
     (snd (crawl_webpage (normalize url) verbose w))).
Proof.
  intros H.
  pose proof (crawl_webpage_result (normalize url) verbose w) as Hres.
  pose proof (crawl_webpage_bindings (normalize url) verbose w Out) as Hout.
  rewrite H in Hres. cbn [binding] in Hout.
  unfold fetch, try_except, asyncio_run. rewrite bind_unfold.
  destruct (crawl_webpage (normalize url) verbose w) as [r w1].
  cbn [fst snd] in *. subst r. cbn [truthy].
  rewrite (print_plain "sad" Out w1 eq_refl). cbn [binding].
  by rewrite Hout.
Qed.

(** C7 (amended): for every URL, when the crawling delegate returns a
    non-empty markdown string that [rich.print] writes unchanged, [fetch]
    writes that markdown and a newline to standard output (after whatever
    the crawler itself left there) and the process exits with code 0. *)
Theorem fetch_prints_markdown url verbose s :
  s <> "" ->
  rich_output s = Written (s +:+ newline) ->
  delegate_result (crawler_for verbose) (normalize url) = Ret (MdStr s) ->
  let p := main (CmdFetch url verbose) in
  exit_code p = 0
  /\ uncaught p = None
  /\ stdout_of p =
       crawler_output Out verbose (normalize url) +:+ s +:+ newline
  /\ stderr_of p = crawler_output Err verbose (normalize url).
Proof.
  intros Hs Hr H. cbn zeta.
  by rewrite (fetch_process_prints url verbose _ _ H
                (truthy_nonempty s Hs) Hr).
Qed.

(** C8: for every URL, when the crawling delegate returns [None] or the
    empty string without raising, [fetch] prints the sentinel "sad" to
    standard output, nothing to standard error, and the process exits with
    code 0; both values are treated alike. *)
Theorem fetch_sentinel_exits_0 url verbose m :
  m = MdNone \/ m = MdStr "" ->
  delegate_result (crawler_for verbose) (normalize url) = Ret m ->
  let p := main (CmdFetch url verbose) in
  exit_code p = 0
  /\ uncaught p = None
  /\ stdout_of p =
       crawler_output Out verbose (normalize url) +:+ "sad" +:+ newline
  /\ stderr_of p = crawler_output Err verbose (normalize url).
Proof.
  intros Hm H. cbn zeta.
  assert (Ht : truthy m = false) by by destruct Hm as [-> | ->].
  by rewrite (fetch_process_sentinel url verbose _ H Ht).
Qed.

(** C9: for every URL, if the crawler built for [verbose=True] and the one
    built for [verbose=False] end each of their operations alike (they may
    log differently), then [crawl_webpage] returns the same value, or raises
    the same exception, with the flag true as with the flag false, from any
    two states of the process. *)
Theorem crawl_webpage_result_ignores_verbose url w1 w2 :
  same_outcomes (crawler_for true) (crawler_for false) ->
  fst (crawl_webpage url true w1) = fst (crawl_webpage url false w2).
Proof.
  intros H. rewrite !crawl_webpage_result. by apply same_outcomes_result.
Qed.

(** C10 (amended): with the verbose flag false, what the crawler writes
    through the names [sys.stdout] and [sys.stderr] during [crawl_webpage]
    ends up in two fresh [io.StringIO] buffers, and the standard bindings
    are afterwards as before, so nothing refers to the buffers any more;
    what the crawler writes to the standard streams by another route still
    reaches them.  The real standard output of a [fetch] process holds
    such direct writes and then what [print] wrote for the markdown result,
    or the sentinel, or nothing more when the crawl raised. *)
Theorem quiet_crawl_output_is_captured url w :
  let L := session_logs (crawler_for false) url in
  let w' := snd (crawl_webpage url false w) in
  heap w' = heap w ++ [through_on Out L; through_on Err L]
  /\ fd1 w' = fd1 w +:+ direct_on Out L
  /\ fd2 w' = fd2 w +:+ direct_on Err L
  /\ sys_stdout w' = sys_stdout w
  /\ sys_stderr w' = sys_stderr w
  /\ stdout_of (main (CmdFetch url false)) =
       direct_on Out (session_logs (crawler_for false) (normalize url))
       +:+ match delegate_result (crawler_for false) (normalize url) with
           | Ret m =>
               if truthy m then written (shown m) else "sad" +:+ newline
           | Raise _ => ""
           end.
Proof.
  cbn zeta. rewrite crawl_webpage_quiet. cbn [snd heap fd1 fd2 sys_stdout
    sys_stderr]. repeat split.
  by rewrite fetch_process_stdout.
Qed.

End FetchClaims.

(** ** The claims about [setup] and about both commands *)

Section SetupClaims.
Context {crawl4ai : Crawl4ai} {host : Host} {rich : Rich}.

Lemma main_setup :
  main CmdSetup =
  match setup boot with
  | (Ret _, w) => mkProcess 0 None w
  | (Raise (SystemExit code), w) => mkProcess (code mod 256) None w
  | (Raise KeyboardInterrupt, w) => mkProcess 130 None w
  | (Raise e, w) => mkProcess 1 (Some e) w
  end.
Proof. reflexivity. Qed.

Lemma setup_process_calls :
  calls (final (main CmdSetup)) = calls (snd (setup boot)).
Proof.
  rewrite main_setup. destruct (setup boot) as [[[]|e] w]; [reflexivity|].
  by destruct e.
Qed.

Lemma setup_process_stderr :
  stderr_of (main CmdSetup) = fd2 (snd (setup boot)).
Proof.
  rewrite main_setup. destruct (setup boot) as [[[]|e] w]; [reflexivity|].
  by destruct e.
Qed.

Lemma setup_process_stdout :
  stdout_of (main CmdSetup) = fd1 (snd (setup boot)).
Proof.
  rewrite main_setup. destruct (setup boot) as [[[]|e] w]; [reflexivity|].
  by destruct e.
Qed.

(** The exit code of a [setup] process: 0 when no started subprocess
    failed and [print] accepted the captured output, and 1 otherwise. *)
Lemma setup_process_exit :
  exit_code (main CmdSetup) =
  match setup_failure with
  | None =>
      match rich_output (captured_stdout setup_cmd) with
      | Written _ => 0
      | Rejected _ => 1
      end
  | Some _ => 1
  end.
Proof.
  rewrite main_setup. destruct setup_boot as (Hres & _).
  destruct (setup boot) as [r w]. cbn [fst] in Hres. subst r.
  destruct setup_failure as [e|] eqn:Hf.
  - assert (Hc : match e with
                 | CalledProcessError _ _ _ | FileNotFoundError _
                 | OSError _ => True
                 | _ => False
                 end).
    { unfold setup_failure in Hf. destruct chrome_found.
      - by apply (failure_of_class setup_cmd).
      - destruct (failure_of installer_cmd) as [e'|] eqn:E.
        + injection Hf as <-. by apply (failure_of_class installer_cmd).
        + by apply (failure_of_class setup_cmd). }
    destruct e; try contradiction; cbn; try reflexivity.
    by destruct (rich_output stderr).
  - by destruct (rich_output (captured_stdout setup_cmd)).
Qed.

Lemma setup_process_uncaught e :
  setup_failure = Some e -> setup_handles e = true ->
  setup_handler_exit e = SystemExit 1 ->
  uncaught (main CmdSetup) = None.
Proof.
  intros Hf He Hx. rewrite main_setup. destruct setup_boot as (Hres & _).
  destruct (setup boot) as [r w]. cbn [fst] in Hres. subst r.
  by rewrite Hf, He, Hx.
Qed.

(** Which subprocesses a [setup] process starts. *)
Lemma invoked_iff argv :
  invoked argv (main CmdSetup) <->
  (argv = installer_cmd /\ chrome_found = false)
  \/ (argv = setup_cmd /\ chrome_found || succeeds installer_cmd = true).
Proof.
  unfold invoked. rewrite setup_process_calls.
  destruct setup_boot as (_ & -> & _).
  rewrite !in_app_iff, in_map_iff. split.
  - intros [(x & Hx & _) | [H | H]]; [discriminate| |].
    + destruct chrome_found; [destruct H|].
      destruct H as [[= <-]|[]]. by left.
    + destruct (chrome_found || succeeds installer_cmd); [|destruct H].
      destruct H as [[= <-]|[]]. by right.
  - intros [[-> ->] | [-> ->]].
    + right; left. by left.
    + right; right. by left.
Qed.

(** C6: a [setup] process first asks [shutil.which] about the known
    browser paths; it starts the browser installer if and only if none of
    them is found; and whenever the installer succeeded or was skipped it
    then starts the one-time setup executable, as its last external call. *)
Theorem setup_invocations :
  let p := main CmdSetup in
  calls (final p) =
    map CallWhich (probed chrome_paths)
    ++ (if chrome_found then [] else [CallRun installer_cmd])
    ++ (if chrome_found || succeeds installer_cmd
        then [CallRun setup_cmd] else [])
  /\ (invoked installer_cmd p <-> chrome_found = false)
  /\ (chrome_found = true \/ succeeds installer_cmd = true ->
      invoked setup_cmd p).
Proof.
  cbn zeta. split; [|split].
  - rewrite setup_process_calls. by destruct setup_boot as (_ & -> & _).
  - rewrite invoked_iff. split.
    + by intros [[_ H] | [[=] _]].
    + intros H. by left.
  - intros H. apply invoked_iff. right. split; [reflexivity|].
    destruct H as [-> | ->]; [reflexivity|]. apply orb_true_r.
Qed.

(** C4 (amended): a failure that reaches a command as an exception of a
    class its handler names ([Exception] in [fetch]; [CalledProcessError]
    or [FileNotFoundError] in [setup]) is caught at the command boundary
    and the process exits with code 1; the report goes to standard error,
    in full when [rich.print] accepts its text.  The case of [fetch] where
    the crawl yields no content is not such a failure: the sentinel goes to
    standard output and the process exits with code 0. *)
Theorem handled_failures_exit_1 :
  (forall url verbose e,
     delegate_result (crawler_for verbose) (normalize url) = Raise e ->
     is_Exception e = true ->
     let p := main (CmdFetch url verbose) in
     exit_code p = 1
     /\ (forall out,
           rich_output (error_text (normalize url) e) = Written out ->
           uncaught p = None
           /\ stderr_of p =
                crawler_output Err verbose (normalize url) +:+ out))
  /\ (forall e,
        setup_failure = Some e ->
        setup_handles e = true ->
        let p := main CmdSetup in
        exit_code p = 1
        /\ stderr_of p = setup_diagnostics e
        /\ (setup_handler_exit e = SystemExit 1 -> uncaught p = None))
  /\ (forall url verbose,
        delegate_result (crawler_for verbose) (normalize url) = Ret MdNone ->
        let p := main (CmdFetch url verbose) in
        exit_code p = 0
        /\ uncaught p = None
        /\ stdout_of p =
             crawler_output Out verbose (normalize url) +:+ "sad" +:+ newline
        /\ stderr_of p = crawler_output Err verbose (normalize url)).
Proof.
  split; [|split].
  - intros url verbose e H He. cbn zeta.
    rewrite (fetch_process_catches url verbose e H He).
    destruct (rich_output (error_text (normalize url) e)) as [out|msg].
    + split; [reflexivity|]. by intros out' [= <-].
    + split; [reflexivity|]. intros out' [=].
  - intros e Hf He. cbn zeta. split; [|split].
    + by rewrite setup_process_exit, Hf.
    + rewrite setup_process_stderr.
      destruct setup_boot as (_ & _ & -> & _). by rewrite Hf.
    + by apply (setup_process_uncaught e).
  - intros url verbose H. cbn zeta.
    by rewrite (fetch_process_sentinel url verbose MdNone H eq_refl).
Qed.

End SetupClaims.

(** ** Concrete runs *)

Import Samples.

(** C1, an instance: the crawl of example.com times out. *)
Lemma fetch_catches_Exception_witness :
  is_Exception timeout = true
  /\ delegate_result (crawler_for (crawl4ai := raising timeout) false)
       (normalize "example.com") = Raise timeout
  /\ (let p := main (crawl4ai := raising timeout) (host := bare)
                 (rich := console) (CmdFetch "example.com" false) in
      exit_code p = 1
      /\ stdout_of p = ""
      /\ fst (fetch (crawl4ai := raising timeout) (rich := console)
                "example.com" false boot) = Raise (SystemExit 1)
      /\ uncaught p = None
      /\ stderr_of p =
           "Error fetching https://example.com: Page.goto: Timeout 30000ms exceeded."
           +:+ newline).
Proof.
  split; [reflexivity|]. split; [reflexivity|].
  pose proof (fetch_catches_Exception (crawl4ai := raising timeout)
                (host := bare) (rich := console)
                "example.com" false timeout eq_refl eq_refl)
    as (_ & Hexit & Hout & Hprinted).
  split; [exact Hexit|]. split; [exact Hout|].
  exact (Hprinted _ eq_refl).
Defined.

(** C1, where the claim fails: [SystemExit] and [CancelledError] are
    exceptions that are not instances of [Exception].  Raised by the
    crawler, neither is caught by [fetch] and no error line is printed; with
    [SystemExit(0)] the process even exits with code 0.  And for an
    [Exception] whose message holds "[/x]", the [except] clause runs but
    its [print] raises [MarkupError]: no error line is printed. *)
Lemma fetch_misses_base_exceptions :
  (let p := main (crawl4ai := raising (SystemExit 0)) (host := bare)
              (rich := console) (CmdFetch "example.com" false) in
   delegate_result (crawler_for (crawl4ai := raising (SystemExit 0)) false)
     (normalize "example.com") = Raise (SystemExit 0)
   /\ fst (fetch (crawl4ai := raising (SystemExit 0)) (rich := console)
             "example.com" false boot)
      = Raise (SystemExit 0)
   /\ exit_code p = 0
   /\ stderr_of p = "")
  /\ (let p := main (crawl4ai := raising CancelledError) (host := bare)
                 (rich := console) (CmdFetch "example.com" false) in
      delegate_result (crawler_for (crawl4ai := raising CancelledError) false)
        (normalize "example.com") = Raise CancelledError
      /\ fst (fetch (crawl4ai := raising CancelledError) (rich := console)
                "example.com" false boot)
         = Raise CancelledError
      /\ uncaught p = Some CancelledError
      /\ stderr_of p = "")
  /\ (let p := main (crawl4ai := raising bad_tag) (host := bare)
                 (rich := console) (CmdFetch "example.com" false) in
      is_Exception bad_tag = true
      /\ delegate_result (crawler_for (crawl4ai := raising bad_tag) false)
           (normalize "example.com") = Raise bad_tag
      /\ uncaught p
         = Some (MarkupError
                   "closing tag '[/x]' at position 44 doesn't match any open tag")
      /\ stderr_of p = "").
Proof. by repeat split. Qed.

(** C2, where the claim fails: "ftp://example.com" begins with a scheme,
    and the crawler is asked for "https://ftp://example.com". *)
Lemma fetch_prefixes_other_schemes :
  begins_with_scheme "ftp://example.com" = true
  /\ normalize "ftp://example.com" = "https://ftp://example.com"
  /\ calls (final (main (crawl4ai := returning (MdStr "# Title"))
                     (host := bare) (rich := console)
                     (CmdFetch "ftp://example.com" false))) =
       [ CallCrawlerNew true false false; CallAenter;
         CallArun "https://ftp://example.com"; CallAexit None ].
Proof. by repeat split. Qed.

(** C3, where the program fails the claim: no browser is found, the
    installer and [crawl4ai-setup] both exit with code 0, and the captured
    output of [crawl4ai-setup] is "ok [/x] done".  The process announces
    success, then [print(result.stdout)] raises [MarkupError], which no
    [except] clause names, and the process ends with status 1. *)
Lemma setup_success_exits_1 :
  let p := main (crawl4ai := returning MdNone) (host := tagged_output)
             (rich := console) CmdSetup in
  succeeds (host := tagged_output) installer_cmd = true
  /\ succeeds (host := tagged_output) setup_cmd = true
  /\ invoked installer_cmd p
  /\ invoked setup_cmd p
  /\ exit_code p = 1
  /\ uncaught p
     = Some (MarkupError
               "closing tag '[/x]' at position 3 doesn't match any open tag")
  /\ stdout_of p =
       lines [ "Chrome not found. Installing Chrome via Playwright...";
               "Chrome installation completed!";
               "Setup completed successfully!" ].
Proof.
  cbn zeta. split; [reflexivity|]. split; [reflexivity|].
  split.
  { apply (invoked_iff (crawl4ai := returning MdNone)
             (host := tagged_output) (rich := console)). by left. }
  split.
  { apply (invoked_iff (crawl4ai := returning MdNone)
             (host := tagged_output) (rich := console)). by right. }
  by repeat split.
Qed.

(** C4, where the claim fails: the crawl yields nothing; the process
    prints the sentinel to standard output, nothing to standard error, and
    exits with code 0. *)
Lemma no_content_exits_0 :
  let p := main (crawl4ai := returning MdNone) (host := bare)
             (rich := console) (CmdFetch "example.com" false) in
  delegate_result (crawler_for (crawl4ai := returning MdNone) false)
    (normalize "example.com") = Ret MdNone
  /\ exit_code p = 0
  /\ stdout_of p = "sad" +:+ newline
  /\ stderr_of p = "".
Proof. by repeat split. Qed.

(** C4, an instance of each part: a crawl that times out, a host without
    the [crawl4ai-setup] executable, and a crawl that yields nothing. *)
Lemma handled_failures_exit_1_witness :
  (let p := main (crawl4ai := raising timeout) (host := bare)
              (rich := console) (CmdFetch "example.com" true) in
   exit_code p = 1
   /\ uncaught p = None
   /\ stderr_of p =
        "warningwarning" +:+
        "Error fetching https://example.com: Page.goto: Timeout 30000ms exceeded."
        +:+ newline)
  /\ (let p := main (crawl4ai := returning MdNone) (host := no_setup)
                 (rich := console) CmdSetup in
      exit_code p = 1
      /\ stderr_of p =
           lines [ "Error: crawl4ai-setup command not found!";
                   newline +:+ "Possible solutions:";
                   "1. Make sure you're in the poetry environment (run 'poetry shell')";
                   "2. Try reinstalling dependencies with 'poetry install'" ]
      /\ uncaught p = None)
  /\ (let p := main (crawl4ai := returning MdNone) (host := bare)
                 (rich := console) (CmdFetch "example.com" true) in
      exit_code p = 0
      /\ uncaught p = None
      /\ stdout_of p =
           "[INIT] crawler[INIT] crawler[INIT] crawler" +:+ "sad" +:+ newline
      /\ stderr_of p = "warningwarningwarning").
Proof.
  pose proof (handled_failures_exit_1 (crawl4ai := raising timeout)
                (host := bare) (rich := console)) as (Hfetch & _ & _).
  pose proof (handled_failures_exit_1 (crawl4ai := returning MdNone)
                (host := no_setup) (rich := console)) as (_ & Hsetup & _).
  pose proof (handled_failures_exit_1 (crawl4ai := returning MdNone)
                (host := bare) (rich := console)) as (_ & _ & Hnone).
  split; [|split].
  - destruct (Hfetch "example.com" true timeout eq_refl eq_refl)
      as (Hexit & Hprinted).
    split; [exact Hexit|]. exact (Hprinted _ eq_refl).
  - destruct (Hsetup (FileNotFoundError
                        "[Errno 2] No such file or directory: 'crawl4ai-setup'")
                eq_refl eq_refl) as (Hexit & Herr & Hun).
    split; [exact Hexit|]. split; [exact Herr|]. exact (Hun eq_refl).
  - exact (Hnone "example.com" true eq_refl).
Defined.

(** C5, an instance: the crawl of example.com yields nothing, in a fresh
    process without the verbose flag. *)
Lemma fetch_no_content_prints_sentinel_witness :
  delegate_result (crawler_for (crawl4ai := returning MdNone) false)
    (normalize "example.com") = Ret MdNone
  /\ fetch (crawl4ai := returning MdNone) (rich := console)
       "example.com" false boot =
     (Ret tt,
      {| sys_stdout := RealStdout; sys_stderr := RealStderr;
         fd1 := "sad" +:+ newline; fd2 := "";
         heap := [ "[INIT] crawler[INIT] crawler[INIT] crawler";
                   "warningwarningwarning" ];
         calls := [ CallCrawlerNew true false false; CallAenter;
                    CallArun "https://example.com"; CallAexit None ] |}).
Proof.
  split; [reflexivity|].
  exact (fetch_no_content_prints_sentinel (crawl4ai := returning MdNone)
           (rich := console) "example.com" false boot eq_refl).
Defined.

(** C7, an instance: a page whose markdown is "# Title", fetched with the
    verbose flag, so that the crawler's own lines precede the markdown. *)
Lemma fetch_prints_markdown_witness :
  "# Title" <> ""
  /\ rich_output (rich := console) "# Title" = Written ("# Title" +:+ newline)
  /\ delegate_result
       (crawler_for (crawl4ai := returning (MdStr "# Title")) true)
       (normalize "example.com") = Ret (MdStr "# Title")
  /\ (let p := main (crawl4ai := returning (MdStr "# Title")) (host := bare)
                 (rich := console) (CmdFetch "example.com" true) in
      exit_code p = 0
      /\ uncaught p = None
      /\ stdout_of p =
           "[INIT] crawler[INIT] crawler[INIT] crawler" +:+ "# Title"
           +:+ newline
      /\ stderr_of p = "warningwarningwarning").
Proof.
  assert (Hne : "# Title" <> "") by discriminate.
  split; [exact Hne|]. split; [reflexivity|]. split; [reflexivity|].
  exact (fetch_prints_markdown (crawl4ai := returning (MdStr "# Title"))
           (host := bare) (rich := console)
           "example.com" true "# Title" Hne eq_refl eq_refl).
Defined.

(** C7, where the claim fails: the crawler returns the empty string, which
    is a markdown string; standard output receives the sentinel and not the
    (empty) markdown.  And for the markdown "a [/b] c", [print] raises
    [MarkupError]: nothing reaches standard output and the process exits
    with code 1. *)
Lemma empty_markdown_prints_sentinel :
  (let p := main (crawl4ai := returning (MdStr "")) (host := bare)
              (rich := console) (CmdFetch "example.com" false) in
   delegate_result (crawler_for (crawl4ai := returning (MdStr "")) false)
     (normalize "example.com") = Ret (MdStr "")
   /\ stdout_of p = "sad" +:+ newline
   /\ stdout_of p <> "" +:+ newline)
  /\ (let p := main (crawl4ai := returning (MdStr "a [/b] c")) (host := bare)
                 (rich := console) (CmdFetch "example.com" false) in
      delegate_result
        (crawler_for (crawl4ai := returning (MdStr "a [/b] c")) false)
        (normalize "example.com") = Ret (MdStr "a [/b] c")
      /\ stdout_of p = ""
      /\ exit_code p = 1).
Proof. by repeat split. Qed.

(** C8, two instances: the crawl yields [None], and the crawl yields the
    empty string. *)
Lemma fetch_sentinel_exits_0_witness :
  (let p := main (crawl4ai := returning MdNone) (host := bare)
              (rich := console) (CmdFetch "example.com" false) in
   exit_code p = 0
   /\ uncaught p = None
   /\ stdout_of p = "sad" +:+ newline
   /\ stderr_of p = "")
  /\ (let p := main (crawl4ai := returning (MdStr "")) (host := bare)
                 (rich := console) (CmdFetch "http://example.com" true) in
      exit_code p = 0
      /\ uncaught p = None
      /\ stdout_of p =
           "[INIT] crawler[INIT] crawler[INIT] crawler" +:+ "sad" +:+ newline
      /\ stderr_of p = "warningwarningwarning").
Proof.
  split.
  - exact (fetch_sentinel_exits_0 (crawl4ai := returning MdNone)
             (host := bare) (rich := console) "example.com" false MdNone
             (or_introl eq_refl) eq_refl).
  - exact (fetch_sentinel_exits_0 (crawl4ai := returning (MdStr ""))
             (host := bare) (rich := console) "http://example.com" true
             (MdStr "") (or_intror eq_refl) eq_refl).
Defined.

Lemma discreet_same_outcomes :
  same_outcomes (crawler_for (crawl4ai := discreet) true)
    (crawler_for (crawl4ai := discreet) false).
Proof. by repeat split. Defined.

(** C9, an instance: a library that logs only in verbose mode. *)
Lemma crawl_webpage_result_ignores_verbose_witness :
  same_outcomes (crawler_for (crawl4ai := discreet) true)
    (crawler_for (crawl4ai := discreet) false)
  /\ fst (crawl_webpage (crawl4ai := discreet) "https://example.com" true boot)
     = Ret (MdStr "# Title")
  /\ fst (crawl_webpage (crawl4ai := discreet) "https://example.com" true boot)
     = fst (crawl_webpage (crawl4ai := discreet) "https://example.com" false
              boot).
Proof.
  split; [exact discreet_same_outcomes|]. split; [reflexivity|].
  exact (crawl_webpage_result_ignores_verbose (crawl4ai := discreet)
           "https://example.com" boot boot discreet_same_outcomes).
Defined.

(** C10, where the claim fails: a crawler that also writes straight to the
    standard output the process started with.  Its write through
    [sys.stdout] is captured; its direct write reaches the real standard
    output, ahead of the markdown. *)
Lemma direct_writes_reach_stdout :
  let p := main (crawl4ai := bypassing) (host := bare) (rich := console)
             (CmdFetch "example.com" false) in
  session_logs (crawler_for (crawl4ai := bypassing) false)
    (normalize "example.com")
  = [(Through Out, "[FETCH] page"); (Direct Out, "browser: started")]
  /\ heap (final p) = ["[FETCH] page"; ""]
  /\ stdout_of p = "browser: started" +:+ "# Title" +:+ newline
  /\ stdout_of p <> "# Title" +:+ newline.
Proof. by repeat split. Qed.

(** C6, two instances: without a browser the installer runs before the
    setup executable; with chromium on the path the search stops there and
    only the setup executable runs. *)
Lemma setup_invocations_witness :
  calls (final (main (crawl4ai := returning MdNone) (host := bare)
                  (rich := console) CmdSetup))
  = map CallWhich chrome_paths
    ++ [CallRun installer_cmd; CallRun setup_cmd]
  /\ calls (final (main (crawl4ai := returning MdNone)
                     (host := with_chromium) (rich := console) CmdSetup))
     = [ CallWhich "chrome"; CallWhich "google-chrome"; CallWhich "chromium";
         CallRun setup_cmd ]
  /\ invoked setup_cmd
       (main (crawl4ai := returning MdNone) (host := with_chromium)
          (rich := console) CmdSetup).
Proof.
  split; [|split].
  - exact (proj1 (setup_invocations (crawl4ai := returning MdNone)
                    (host := bare) (rich := console))).
  - exact (proj1 (setup_invocations (crawl4ai := returning MdNone)
                    (host := with_chromium) (rich := console))).
  - exact (proj2 (proj2 (setup_invocations (crawl4ai := returning MdNone)
                           (host := with_chromium) (rich := console)))
             (or_introl eq_refl)).
Defined.

(** ** Further properties of the URL normalisation *)

Lemma prefix_append (p s : string) : String.prefix p (p +:+ s) = true.
Proof.
  induction p as [|a p IH].
  - by destruct s.
  - change (String a p +:+ s) with (String a (p +:+ s)). cbn.
    by destruct (ascii_dec a a).
Qed.

(** X1: whatever the input, the URL [fetch] works with begins with
    "http://" or with "https://" (the comment of line 60). *)
Theorem normalize_has_http_prefix (url : string) :
  String.prefix "http://" (normalize url)
  || String.prefix "https://" (normalize url) = true.
Proof.
  unfold normalize, startswith. cbn [existsb]. rewrite orb_false_r.
  destruct (String.prefix "http://" url || String.prefix "https://" url)
    eqn:E; cbn [negb]; [exact E|].
  rewrite (prefix_append "https://" url). apply orb_true_r.
Qed.

Lemma normalize_fixed (url : string) :
  String.prefix "http://" url || String.prefix "https://" url = true ->
  normalize url = url.
Proof.
  intros H. unfold normalize, startswith. cbn [existsb].
  by rewrite orb_false_r, H.
Qed.

(** X2: normalising twice is normalising once, so giving [fetch] a URL it
    has already normalised changes nothing in what it does. *)
Theorem normalize_idempotent
  {crawl4ai : Crawl4ai} {rich : Rich} (url : string) (verbose : bool) :
  normalize (normalize url) = normalize url
  /\ fetch (normalize url) verbose = fetch url verbose.
Proof.
  assert (H : normalize (normalize url) = normalize url)
    by apply normalize_fixed, normalize_has_http_prefix.
  split; [exact H|]. unfold fetch. by rewrite H.
Qed.

(** ** Further properties of [crawl_webpage] and [fetch] *)

Section FetchExtras.
Context {crawl4ai : Crawl4ai} {host : Host} {rich : Rich}.

Lemma calls_absorb l w : calls (absorb l w) = calls w.
Proof.
  revert w. induction l as [|[c t] l IH]; intros w; [reflexivity|].
  cbn [absorb]. rewrite IH. by destruct (destination c w).
Qed.

Lemma crawl_webpage_calls url verbose w :
  calls (snd (crawl_webpage url verbose w)) =
  calls w ++ CallCrawlerNew true verbose false
          :: session_calls (crawler_for verbose) url.
Proof.
  destruct verbose.
  - rewrite crawl_webpage_verbose. cbn [snd add_calls calls].
    by rewrite calls_absorb.
  - by rewrite crawl_webpage_quiet.
Qed.


(** X4: when [arun] raises and the crawler's [__aexit__] swallows the
    exception, [crawl_webpage] runs off its end and returns [None]; the
    [fetch] process then prints the sentinel and exits with code 0, whatever
    the class of the exception. *)
Theorem swallowed_failure_prints_sentinel url verbose e :
  let c := crawler_for verbose in
  let u := normalize url in
  outcome (aenter c) = inr tt ->
  outcome (arun c u) = inl e ->
  outcome (aexit c (Some e)) = inr true ->
  let p := main (CmdFetch url verbose) in
  (forall w, fst (crawl_webpage u verbose w) = Ret MdNone)
  /\ exit_code p = 0
  /\ stdout_of p = crawler_output Out verbose u +:+ "sad" +:+ newline
  /\ stderr_of p = crawler_output Err verbose u.
Proof.
  cbn zeta. intros Henter Hrun Hexit.
  assert (H : delegate_result (crawler_for verbose) (normalize url)
              = Ret MdNone).
  { unfold delegate_result. by rewrite Henter, Hrun, Hexit. }
  split; [intros w; by rewrite crawl_webpage_result|].
  by rewrite (fetch_process_sentinel url verbose _ H eq_refl).
Qed.

(** X5: when the crawler's [__aenter__] raises, [crawl_webpage] raises the
    same exception, and neither [arun] nor [__aexit__] is called: the
    external calls made are the construction and the entry only.  The
    standard bindings are as before the call. *)
Theorem failed_start_skips_crawl url verbose e w :
  outcome (aenter (crawler_for verbose)) = inl e ->
  let r := crawl_webpage url verbose w in
  fst r = Raise e
  /\ calls (snd r) = calls w ++ [CallCrawlerNew true verbose false; CallAenter]
  /\ sys_stdout (snd r) = sys_stdout w
  /\ sys_stderr (snd r) = sys_stderr w.
Proof.
  intros H. cbn zeta.
  rewrite crawl_webpage_result, crawl_webpage_calls.
  unfold delegate_result, session_calls. rewrite H.
  repeat split.
  - apply (crawl_webpage_bindings url verbose w Out).
  - apply (crawl_webpage_bindings url verbose w Err).
Qed.

(** X6: when the crawler's [__aexit__] raises an instance of [Exception],
    the [except] clause of [fetch] runs for that exception, whether [arun]
    had returned a result or raised: a markdown result already obtained is
    not printed, the process exits with code 1, and standard error
    receives what [rich.print] writes for the error message of that
    exception, when it accepts it. *)
Theorem cleanup_failure_is_reported url verbose e' :
  let c := crawler_for verbose in
  let u := normalize url in
  outcome (aenter c) = inr tt ->
  outcome (aexit c (exit_arg (outcome (arun c u)))) = inl e' ->
  is_Exception e' = true ->
  let p := main (CmdFetch url verbose) in
  exit_code p = 1
  /\ stdout_of p = crawler_output Out verbose u
  /\ stderr_of p =
       crawler_output Err verbose u
       +:+ written (rich_output (error_text u e')).
Proof.
  cbn zeta. intros Henter Hexit He.
  assert (H : delegate_result (crawler_for verbose) (normalize url)
              = Raise e').
  { unfold delegate_result. rewrite Henter.
    destruct (outcome (arun (crawler_for verbose) (normalize url)));
      cbn [exit_arg] in Hexit; by rewrite Hexit. }
  rewrite (fetch_process_catches url verbose e' H He).
  destruct (rich_output (error_text (normalize url) e')); cbn;
    by rewrite ?append_nil_r.
Qed.

End FetchExtras.

(** ** Further properties of [setup] *)

Section SetupExtras.
Context {crawl4ai : Crawl4ai} {host : Host} {rich : Rich}.

(** X8: what a [setup] process writes to standard output.  The
    announcement of the installation appears exactly when no browser is
    found, its completion line only after the installer succeeded, and the
    success line only when every started subprocess succeeded; the success
    line is followed by what [rich.print] writes for the captured output of
    [crawl4ai-setup], which is nothing when it rejects that text. *)
Theorem setup_stdout :
  stdout_of (main CmdSetup) =
  (if chrome_found then ""
   else "Chrome not found. Installing Chrome via Playwright..." +:+ newline
        +:+ (if succeeds installer_cmd
             then "Chrome installation completed!" +:+ newline else ""))
  +:+ (if (chrome_found || succeeds installer_cmd) && succeeds setup_cmd
       then "Setup completed successfully!" +:+ newline
            +:+ written (rich_output (captured_stdout setup_cmd))
       else "").
Proof.
  rewrite setup_process_stdout.
  by destruct setup_boot as (_ & _ & _ & ->).
Qed.

(** X9: a subprocess that cannot be started for a reason other than a
    missing executable (an [OSError] that is not a [FileNotFoundError]) is
    named by neither [except] clause: the exception escapes [setup], no
    diagnostic is printed, and the process ends with status 1 through the
    interpreter. *)
Theorem setup_lets_other_oserror_escape text :
  setup_failure = Some (OSError text) ->
  let p := main CmdSetup in
  fst (setup boot) = Raise (OSError text)
  /\ uncaught p = Some (OSError text)
  /\ exit_code p = 1
  /\ stderr_of p = "".
Proof.
  intros Hf. cbn zeta. rewrite setup_process_stderr, main_setup.
  destruct setup_boot as (Hres & _ & Herr & _). rewrite Herr, Hf.
  destruct (setup boot) as [r w]. cbn [fst] in Hres. subst r.
  rewrite Hf. by cbn.
Qed.

(** X10: when no browser is found and the installer [playwright] is itself
    missing, the [FileNotFoundError] clause runs: the process reports that
    the [crawl4ai-setup] command was not found, although that command was
    never started, and exits with code 1. *)
Theorem missing_installer_reported_as_missing_setup text :
  chrome_found = false ->
  run_process installer_cmd = ENOENT text ->
  let p := main CmdSetup in
  exit_code p = 1
  /\ ~ invoked setup_cmd p
  /\ invoked installer_cmd p
  /\ stderr_of p =
       lines [ "Error: crawl4ai-setup command not found!";
               newline +:+ "Possible solutions:";
               "1. Make sure you're in the poetry environment (run 'poetry shell')";
               "2. Try reinstalling dependencies with 'poetry install'" ].
Proof.
  intros Hc Hrun. cbn zeta.
  assert (Hfail : failure_of installer_cmd = Some (FileNotFoundError text))
    by (unfold failure_of; by rewrite Hrun).
  assert (Hf : setup_failure = Some (FileNotFoundError text))
    by (unfold setup_failure; by rewrite Hc, Hfail).
  split; [by rewrite setup_process_exit, Hf|].
  split; [|split].
  - rewrite invoked_iff. unfold succeeds. rewrite Hc, Hfail.
    by intros [[[=] _] | [_ [=]]].
  - apply invoked_iff. by left.
  - rewrite setup_process_stderr. destruct setup_boot as (_ & _ & -> & _).
    by rewrite Hf.
Qed.

(** X11: a [setup] process exits with code 0 or with code 1, and with
    code 0 exactly when every subprocess it started succeeded and
    [rich.print] accepted the captured output of [crawl4ai-setup]. *)
Theorem setup_exit_0_iff :
  let p := main CmdSetup in
  (exit_code p = 0 \/ exit_code p = 1)
  /\ (exit_code p = 0 <->
      (forall argv, invoked argv p -> succeeds argv = true)
      /\ exists out,
           rich_output (captured_stdout setup_cmd) = Written out).
Proof.
  cbn zeta. rewrite setup_process_exit. split.
  { destruct setup_failure; [by right|].
    destruct (rich_output (captured_stdout setup_cmd)); auto. }
  split.
  - intros H.
    assert (Hf : setup_failure = None)
      by (destruct setup_failure; [discriminate|reflexivity]).
    rewrite Hf in H. split.
    + intros argv Hinv. apply invoked_iff in Hinv.
      unfold setup_failure, succeeds in *.
      destruct Hinv as [[-> Hc] | [-> Hc]].
      * rewrite Hc in Hf. by destruct (failure_of installer_cmd).
      * destruct chrome_found.
        -- by rewrite Hf.
        -- destruct (failure_of installer_cmd); [discriminate|].
           by rewrite Hf.
    + destruct (rich_output (captured_stdout setup_cmd)) as [out|];
        [by exists out|discriminate].
  - intros [H [out Hout]]. rewrite Hout.
    assert (Hf : setup_failure = None); [|by rewrite Hf].
    unfold setup_failure.
    destruct chrome_found eqn:Hc.
    + assert (Hs : succeeds setup_cmd = true).
      { apply H, invoked_iff. right. by rewrite Hc. }
      unfold succeeds in Hs. by destruct (failure_of setup_cmd).
    + assert (Hi : succeeds installer_cmd = true).
      { apply H, invoked_iff. left. by rewrite Hc. }
      assert (Hs : succeeds setup_cmd = true).
      { apply H, invoked_iff. right. by rewrite Hc, Hi. }
      unfold succeeds in Hi, Hs.
      destruct (failure_of installer_cmd); [discriminate|].
      by destruct (failure_of setup_cmd).
Qed.

End SetupExtras.

(** ** Verbose mode *)

(** X12: with the verbose flag true nothing is redirected: from a state
    with the standard bindings, what the crawler writes through
    [sys.stdout] and [sys.stderr] during [crawl_webpage] is appended to the
    real streams, in order, and no buffer is created. *)
Theorem verbose_crawl_output_is_shown {crawl4ai : Crawl4ai} url w :
  sys_stdout w = RealStdout ->
  sys_stderr w = RealStderr ->
  let L := session_logs (crawler_for true) url in
  let w' := snd (crawl_webpage url true w) in
  fd1 w' = fd1 w +:+ text_on Out L
  /\ fd2 w' = fd2 w +:+ text_on Err L
  /\ heap w' = heap w.
Proof.
  intros Ho He. cbn zeta. rewrite crawl_webpage_verbose.
  destruct w as [so se f1 f2 hp cl]. cbn in Ho, He. subst so se.
  by rewrite absorb_real.
Qed.

(** ** Concrete runs of the further properties *)


(** X4, an instance: a time-out that the crawler swallows. *)
Lemma swallowed_failure_prints_sentinel_witness :
  let c := crawler_for (crawl4ai := swallowing timeout) false in
  outcome (aenter c) = inr tt
  /\ outcome (arun c (normalize "example.com")) = inl timeout
  /\ outcome (aexit c (Some timeout)) = inr true
  /\ (let p := main (crawl4ai := swallowing timeout) (host := bare)
                 (rich := console) (CmdFetch "example.com" false) in
      (forall w,
         fst (crawl_webpage (crawl4ai := swallowing timeout)
                (normalize "example.com") false w) = Ret MdNone)
      /\ exit_code p = 0
      /\ stdout_of p = "sad" +:+ newline
      /\ stderr_of p = "").
Proof.
  split; [reflexivity|]. split; [reflexivity|]. split; [reflexivity|].
  exact (swallowed_failure_prints_sentinel
           (crawl4ai := swallowing timeout) (host := bare) (rich := console)
           "example.com" false timeout eq_refl eq_refl eq_refl).
Defined.

(** X5, an instance: the browser does not start. *)
Lemma failed_start_skips_crawl_witness :
  outcome (aenter (crawler_for (crawl4ai := unstartable timeout) false))
  = inl timeout
  /\ (let r := crawl_webpage (crawl4ai := unstartable timeout)
                 "https://example.com" false boot in
      fst r = Raise timeout
      /\ calls (snd r) = [CallCrawlerNew true false false; CallAenter]
      /\ sys_stdout (snd r) = RealStdout
      /\ sys_stderr (snd r) = RealStderr).
Proof.
  split; [reflexivity|].
  exact (failed_start_skips_crawl (crawl4ai := unstartable timeout)
           "https://example.com" false timeout boot eq_refl).
Defined.

(** X6, an instance: the page is crawled and the browser fails to close. *)
Lemma cleanup_failure_is_reported_witness :
  let c := crawler_for (crawl4ai := unclosable timeout) false in
  outcome (aenter c) = inr tt
  /\ outcome (arun c (normalize "example.com"))
     = inr (mkCrawlResult (MdStr "# Title"))
  /\ outcome (aexit c None) = inl timeout
  /\ is_Exception timeout = true
  /\ (let p := main (crawl4ai := unclosable timeout) (host := bare)
                 (rich := console) (CmdFetch "example.com" false) in
      exit_code p = 1
      /\ stdout_of p = ""
      /\ stderr_of p =
           "Error fetching https://example.com: Page.goto: Timeout 30000ms exceeded."
           +:+ newline).
Proof.
  split; [reflexivity|]. split; [reflexivity|]. split; [reflexivity|].
  split; [reflexivity|].
  exact (cleanup_failure_is_reported (crawl4ai := unclosable timeout)
           (host := bare) (rich := console) "example.com" false timeout
           eq_refl eq_refl eq_refl).
Defined.

(** X9, an instance: [crawl4ai-setup] exists and may not be executed. *)
Lemma setup_lets_other_oserror_escape_witness :
  setup_failure (host := locked_down)
  = Some (OSError "[Errno 13] Permission denied: 'crawl4ai-setup'")
  /\ (let p := main (crawl4ai := returning MdNone) (host := locked_down)
                 (rich := console) CmdSetup in
      fst (setup (host := locked_down) (rich := console) boot)
      = Raise (OSError "[Errno 13] Permission denied: 'crawl4ai-setup'")
      /\ uncaught p
         = Some (OSError "[Errno 13] Permission denied: 'crawl4ai-setup'")
      /\ exit_code p = 1
      /\ stderr_of p = "").
Proof.
  split; [reflexivity|].
  exact (setup_lets_other_oserror_escape (crawl4ai := returning MdNone)
           (host := locked_down) (rich := console)
           "[Errno 13] Permission denied: 'crawl4ai-setup'" eq_refl).
Defined.

(** X10, an instance: neither a browser nor [playwright] is installed. *)
Lemma missing_installer_reported_as_missing_setup_witness :
  chrome_found (host := no_playwright) = false
  /\ run_process (Host := no_playwright) installer_cmd
     = ENOENT "[Errno 2] No such file or directory: 'playwright'"
  /\ (let p := main (crawl4ai := returning MdNone) (host := no_playwright)
                 (rich := console) CmdSetup in
      exit_code p = 1
      /\ ~ invoked setup_cmd p
      /\ invoked installer_cmd p
      /\ stderr_of p =
           lines [ "Error: crawl4ai-setup command not found!";
                   newline +:+ "Possible solutions:";
                   "1. Make sure you're in the poetry environment (run 'poetry shell')";
                   "2. Try reinstalling dependencies with 'poetry install'" ]).
Proof.
  split; [reflexivity|]. split; [reflexivity|].
  exact (missing_installer_reported_as_missing_setup
           (crawl4ai := returning MdNone) (host := no_playwright)
           (rich := console)
           "[Errno 2] No such file or directory: 'playwright'"
           eq_refl eq_refl).
Defined.

(** X12, an instance: a fresh process and a library that logs in verbose
    mode. *)
Lemma verbose_crawl_output_is_shown_witness :
  sys_stdout boot = RealStdout
  /\ sys_stderr boot = RealStderr
  /\ (let w' := snd (crawl_webpage (crawl4ai := discreet)
                       "https://example.com" true boot) in
      fd1 w' = "[INIT] crawler[INIT] crawler[INIT] crawler"
      /\ fd2 w' = "warningwarningwarning"
      /\ heap w' = []).
Proof.
  split; [reflexivity|]. split; [reflexivity|].
  exact (verbose_crawl_output_is_shown (crawl4ai := discreet)
           "https://example.com" boot eq_refl eq_refl).
Defined.
